(** * conductr-cli: the JVM sandbox runner ([conductr_cli/sandbox_run_jvm.py])

    A shallow embedding of [sandbox_run_jvm.py] and the properties of its
    instance-expression parser, JVM check, bind-address allocation, image
    cache and extraction, process launch and orchestration.

    Conventions of the embedding:
    - a Python [int] is a [Z]; a Python [str] is a [string] (ASCII only);
    - a raised exception is the [Raise] case of [result];
    - code with effects (file system, bind probes, spawned processes,
      Bintray calls) is a function of the [World] it runs in, returning the
      outcome together with the world it leaves behind, also when it raises;
    - what the operating system answers (can an address be bound, what does
      `java -version` print, what does Bintray reply) is a field of [Host]. *)

From Stdlib Require Import ZArith List Bool Ascii String Lia Sorted.
Import ListNotations.

Local Open Scope string_scope.
Local Open Scope Z_scope.

(** ** Exceptions and results *)

Inductive exn : Type :=
| ValueError
| IndexError
| FileNotFoundError
| FileExistsError
| NotADirectoryError
| IsADirectoryError
| DirectoryNotEmptyError
| OSError
| ReadError
| ShutilError
| ConnectionError
| HTTPError
| CalledProcessError (returncode : Z) (output : string)
| InstanceCountError (image_version instance_expression message : string)
| JavaCallError (message : string)
| JavaVersionParseError (raw_output : string)
| JavaUnsupportedVendorError (jvm_vendor : string)
| JavaUnsupportedVersionError (jvm_version : string)
| BindAddressNotFoundError (setup_instructions : list string)
| BintrayUnreachableError (message : string)
| SandboxImageNotFoundError (image_type image_version : string).

Inductive result (A : Type) : Type :=
| Ok (a : A)
| Raise (e : exn).

Arguments Ok {A} a.
Arguments Raise {A} e.

Definition rbind {A B} (r : result A) (k : A -> result B) : result B :=
  match r with
  | Ok a => k a
  | Raise e => Raise e
  end.

Notation "'try!' x <- r ; k" := (rbind r (fun x => k))
  (at level 10, x pattern, r at level 100, k at level 200).

(** ** The Python built-ins the module uses *)

Module Py.

Definition is_digit (c : ascii) : bool :=
  let n := nat_of_ascii c in (48 <=? n)%nat && (n <=? 57)%nat.

Definition digit_of (c : ascii) : option Z :=
  if is_digit c then Some (Z.of_nat (nat_of_ascii c) - 48) else None.

Definition digit_char (d : Z) : ascii := ascii_of_nat (Z.to_nat (48 + d)).

(** White space of an ASCII [str] for [int()]: space, \t, \n, \v, \f, \r. *)
Definition is_space (c : ascii) : bool :=
  let n := nat_of_ascii c in
  (n =? 32)%nat || ((9 <=? n)%nat && (n <=? 13)%nat).

Fixpoint lstrip (s : string) : string :=
  match s with
  | String c r => if is_space c then lstrip r else s
  | EmptyString => EmptyString
  end.

Fixpoint rstrip (s : string) : string :=
  match s with
  | String c r =>
      match rstrip r with
      | EmptyString => if is_space c then EmptyString else String c EmptyString
      | r' => String c r'
      end
  | EmptyString => EmptyString
  end.

Definition strip (s : string) : string := rstrip (lstrip s).

(** The digits of an integer literal: decimal digits, single underscores
    allowed between two digits. [prev] tells that the previous character was
    a digit. *)
Fixpoint int_digits (s : string) (acc : Z) (prev : bool) : option Z :=
  match s with
  | EmptyString => if prev then Some acc else None
  | String c r =>
      match digit_of c with
      | Some d => int_digits r (10 * acc + d) true
      | None =>
          if Ascii.eqb c "_" && prev then int_digits r acc false else None
      end
  end.

(** [int(s)] on a [str], base 10: surrounding white space, an optional sign,
    then the digits; anything else is a ValueError. *)
Definition int (s : string) : result Z :=
  let body := strip s in
  let '(sign, digits) :=
    match body with
    | String "+" r => (1, r)
    | String "-" r => (-1, r)
    | _ => (1, body)
    end in
  match int_digits digits 0 false with
  | Some v => Ok (sign * v)
  | None => Raise ValueError
  end.

(** [str(n)] on an [int]. The fuel is the bit length of [n], which bounds
    the number of its decimal digits. *)
Fixpoint digits_fuel (fuel : nat) (n : Z) (acc : string) : string :=
  match fuel with
  | O => acc
  | S f =>
      let acc' := String (digit_char (n mod 10)) acc in
      if n <? 10 then acc' else digits_fuel f (n / 10) acc'
  end.

Definition digits (n : Z) : string :=
  digits_fuel (S (Z.to_nat (Z.log2 n))) n EmptyString.

Definition str (n : Z) : string :=
  if n <? 0 then String "-" (digits (- n)) else digits n.

(** [s.split(sep)] with a separator of one character. *)
Fixpoint split (sep : ascii) (s : string) : list string :=
  match s with
  | EmptyString => [EmptyString]
  | String c r =>
      if Ascii.eqb c sep then EmptyString :: split sep r
      else match split sep r with
           | w :: ws => String c w :: ws
           | [] => [String c EmptyString]
           end
  end.

(** [s.replace(old, '')] with [old] of one character. *)
Fixpoint remove_char (old : ascii) (s : string) : string :=
  match s with
  | EmptyString => EmptyString
  | String c r =>
      if Ascii.eqb c old then remove_char old r else String c (remove_char old r)
  end.

(** Line boundaries of [str.splitlines] in ASCII: \n, \r, \r\n, \v, \f,
    \x1c, \x1d, \x1e. *)
Definition is_linebreak (c : ascii) : bool :=
  let n := nat_of_ascii c in
  ((10 <=? n)%nat && (n <=? 13)%nat) || ((28 <=? n)%nat && (n <=? 30)%nat).

Fixpoint splitlines (s : string) : list string :=
  match s with
  | EmptyString => []
  | String c r =>
      if is_linebreak c then
        match c, r with
        | "013"%char, String "010"%char r' => EmptyString :: splitlines r'
        | _, _ => EmptyString :: splitlines r
        end
      else match splitlines r with
           | l :: ls => String c l :: ls
           | [] => [String c EmptyString]
           end
  end.

(** [xs[i]] for [i >= 0] and [xs[-1]]. *)
Definition index {A} (xs : list A) (i : nat) : result A :=
  match nth_error xs i with
  | Some x => Ok x
  | None => Raise IndexError
  end.

Definition index_last {A} (xs : list A) : result A :=
  match rev xs with
  | x :: _ => Ok x
  | [] => Raise IndexError
  end.

(** [xs[0:n]] *)
Definition slice_to {A} (xs : list A) (n : Z) : list A :=
  if n <? 0 then firstn (List.length xs - Z.to_nat (- n)) xs
  else firstn (Z.to_nat n) xs.

End Py.

(** ** Regular expressions, as far as [re.search] is used *)

Module Re.

Inductive regex : Type :=
| Void
| Eps
| Range (lo hi : ascii)
| Seq (r1 r2 : regex)
| Alt (r1 r2 : regex)
| Star (r : regex).

Definition Lit (c : ascii) : regex := Range c c.
Definition Plus (r : regex) : regex := Seq r (Star r).

Definition in_range (lo hi c : ascii) : bool :=
  (nat_of_ascii lo <=? nat_of_ascii c)%nat && (nat_of_ascii c <=? nat_of_ascii hi)%nat.

Fixpoint nullable (r : regex) : bool :=
  match r with
  | Void => false
  | Eps => true
  | Range _ _ => false
  | Seq r1 r2 => nullable r1 && nullable r2
  | Alt r1 r2 => nullable r1 || nullable r2
  | Star _ => true
  end.

(** Brzozowski derivative of [r] by the character [c]. *)
Fixpoint deriv (c : ascii) (r : regex) : regex :=
  match r with
  | Void => Void
  | Eps => Void
  | Range lo hi => if in_range lo hi c then Eps else Void
  | Seq r1 r2 =>
      if nullable r1 then Alt (Seq (deriv c r1) r2) (deriv c r2)
      else Seq (deriv c r1) r2
  | Alt r1 r2 => Alt (deriv c r1) (deriv c r2)
  | Star r1 => Seq (deriv c r1) (Star r1)
  end.

(** Does some prefix of [s] match [r]? *)
Fixpoint match_here (r : regex) (s : string) : bool :=
  nullable r ||
  match s with
  | String c s' => match_here (deriv c r) s'
  | EmptyString => false
  end.

(** [re.search(r, s)] as a truth value: a match starting anywhere in [s]. *)
Fixpoint search (r : regex) (s : string) : bool :=
  match_here r s ||
  match s with
  | String _ s' => search r s'
  | EmptyString => false
  end.


End Re.

(** ** Module constants *)

(** [NR_OF_INSTANCE_EXPRESSION = '[0-9]+\\:[0-9]+'] *)
Definition NR_OF_INSTANCE_EXPRESSION : Re.regex :=
  Re.Seq (Re.Plus (Re.Range "0" "9")) (Re.Seq (Re.Lit ":") (Re.Plus (Re.Range "0" "9"))).

Definition BIND_TEST_PORT : Z := 19991.
Definition CONDUCTR_AKKA_REMOTING_PORT : Z := 9004.
Definition NR_OF_PROXY_INSTANCE : Z := 1.
Definition SUPPORTED_JVM_VENDOR : string := "java".
Definition SUPPORTED_JVM_VERSION : Z * Z := (1, 8).

(** ** [instance_count] *)

Definition instance_count_message : string :=
  "Number of containers must be an integer or a valid instance expression, i.e. 2:3 which translates to 2 core instances and 3 agent instances".

Definition instance_count (image_version instance_expression : string)
  : result (Z * Z) :=
  match Py.int instance_expression with
  | Ok nr_of_instances => Ok (nr_of_instances, nr_of_instances)
  | Raise ValueError =>
      if Re.search NR_OF_INSTANCE_EXPRESSION instance_expression then
        let parts := Py.split ":" instance_expression in
        try! part0 <- Py.index parts 0;
        try! nr_of_core_instances <- Py.int part0;
        try! part1 <- Py.index_last parts;
        try! nr_of_agent_instances <- Py.int part1;
        Ok (nr_of_core_instances, nr_of_agent_instances)
      else
        Raise (InstanceCountError image_version instance_expression
                 instance_count_message)
  | Raise e => Raise e
  end.

(** ** [subprocess], as far as [getoutput] goes *)

Module Subprocess.

(** What running a command through the shell gives: its exit status and
    what it wrote on stdout and stderr together. *)
Record Completed : Type := mkCompleted {
  returncode : Z;
  output : string
}.

(** [check_output(cmd, shell=True, stderr=STDOUT)] *)
Definition check_output (p : Completed) : result string :=
  if returncode p =? 0 then Ok (output p)
  else Raise (CalledProcessError (returncode p) (output p)).

Fixpoint drop_final_newline (s : string) : string :=
  match s with
  | EmptyString => EmptyString
  | String "010"%char EmptyString => EmptyString
  | String c r => String c (drop_final_newline r)
  end.

(** [getstatusoutput]: the CalledProcessError of [check_output] is caught
    and turned into the exit code; one trailing newline is dropped. *)
Definition getstatusoutput (p : Completed) : result (Z * string) :=
  let caught :=
    match check_output p with
    | Ok data => Ok (0, data)
    | Raise (CalledProcessError rc data) => Ok (rc, data)
    | Raise e => Raise e
    end in
  try! (exitcode, data) <- caught;
  Ok (exitcode, drop_final_newline data).

(** [getoutput]: "like getstatusoutput(), except the exit code is ignored". *)
Definition getoutput (p : Completed) : result string :=
  try! (_, data) <- getstatusoutput p;
  Ok data.

End Subprocess.

(** ** [validate_jvm_support] *)

(** Tuple comparison [(a1, a2) >= (b1, b2)]. *)
Definition pair_ge (a b : Z * Z) : bool :=
  (fst b <? fst a) || ((fst a =? fst b) && (snd b <=? snd a)).

Definition double_quote : ascii := "034"%char.

(** [java] is what running `java -version` gives on this machine. *)
Definition validate_jvm_support (java : Subprocess.Completed) : result unit :=
  let body : result unit :=
    try! raw_output <- Subprocess.getoutput java;
    let lines := Py.splitlines raw_output in
    let parse_error := Raise (JavaVersionParseError raw_output) in
    match lines with
    | first_line :: _ =>
        let parts := Py.split " " first_line in
        if (List.length parts =? 3)%nat then
          try! jvm_vendor <- Py.index parts 0;
          if String.eqb jvm_vendor SUPPORTED_JVM_VENDOR then
            try! part2 <- Py.index parts 2;
            let jvm_version := Py.remove_char double_quote part2 in
            let jvm_version_parts := Py.split "." jvm_version in
            if (2 <=? List.length jvm_version_parts)%nat then
              try! major_str <- Py.index jvm_version_parts 0;
              try! jvm_version_major <- Py.int major_str;
              try! minor_str <- Py.index jvm_version_parts 1;
              try! jvm_version_minor <- Py.int minor_str;
              let jvm_version_tuple := (jvm_version_major, jvm_version_minor) in
              if pair_ge jvm_version_tuple SUPPORTED_JVM_VERSION then Ok tt
              else Raise (JavaUnsupportedVersionError jvm_version)
            else parse_error
          else Raise (JavaUnsupportedVendorError jvm_vendor)
        else parse_error
    | [] => parse_error
    end in
  match body with
  | Raise (CalledProcessError _ _) =>
      Raise (JavaCallError "Failure calling `java -version`")
  | r => r
  end.

(** ** IPv4 addresses and networks ([ipaddress]) *)

Module IP.

(** An address is its 32-bit integer. *)
Record IPv4Address : Type := mkAddress { to_int : Z }.

Definition octet (a : IPv4Address) (i : Z) : Z :=
  Z.land (Z.shiftr (to_int a) (8 * i)) 255.

(** [str(address)]: dotted decimal, most significant octet first. *)
Definition str (a : IPv4Address) : string :=
  Py.str (octet a 3) ++ "." ++ Py.str (octet a 2) ++ "." ++
  Py.str (octet a 1) ++ "." ++ Py.str (octet a 0).

Definition of_octets (a b c d : Z) : IPv4Address :=
  mkAddress (Z.lor (Z.shiftl a 24) (Z.lor (Z.shiftl b 16) (Z.lor (Z.shiftl c 8) d))).

Record IPv4Network : Type := mkNetwork {
  network_address : IPv4Address;
  prefixlen : Z
}.

Definition ALL_ONES : Z := 2 ^ 32 - 1.

Definition hostmask (n : IPv4Network) : Z :=
  Z.shiftr ALL_ONES (prefixlen n).

Definition netmask (n : IPv4Network) : IPv4Address :=
  mkAddress (Z.lxor ALL_ONES (hostmask n)).

Definition broadcast_address (n : IPv4Network) : IPv4Address :=
  mkAddress (Z.lor (to_int (network_address n)) (hostmask n)).

(** [range(lo, hi)] *)
Definition range (lo hi : Z) : list Z :=
  map (fun i => lo + Z.of_nat i) (seq 0 (Z.to_nat (hi - lo))).

(** [network.hosts()]: the addresses between the network and the broadcast
    address; a /31 has its two addresses as hosts and a /32 its only one. *)
Definition hosts (n : IPv4Network) : list IPv4Address :=
  let network := to_int (network_address n) in
  let broadcast := to_int (broadcast_address n) in
  if prefixlen n =? 31 then map mkAddress (range network (broadcast + 1))
  else if prefixlen n =? 32 then [network_address n]
  else map mkAddress (range (network + 1) broadcast).

Definition eqb (a b : IPv4Address) : bool := to_int a =? to_int b.

End IP.

(** ** The file system ([os], [os.path], [shutil]) *)

Module FS.

(** A path is the list of its components from the root: the string
    ['{}/{}'.format(d, name)] is [d ++ [name]]. Names hold no separator;
    links, permissions and time stamps are not modelled. *)
Definition path : Type := list string.

Inductive member_kind : Type :=
| MDir
| MFile (data : string).

(** A member of an archive: its path inside the archive and what it is. *)
Definition member : Type := path * member_kind.

(** What a file holds: bytes, or a well-formed archive given by its members
    (the tar and gzip encodings are not modelled). *)
Inductive content : Type :=
| Bytes (data : string)
| Archive (members : list member).

#[warnings="-register-all"] Inductive node : Type :=
| File (c : content)
| Dir (entries : list (string * node)).

Definition entries : Type := list (string * node).

Fixpoint get (name : string) (es : entries) : option node :=
  match es with
  | [] => None
  | (k, n) :: r => if String.eqb k name then Some n else get name r
  end.

Fixpoint set (name : string) (n : node) (es : entries) : entries :=
  match es with
  | [] => [(name, n)]
  | (k, m) :: r =>
      if String.eqb k name then (k, n) :: r else (k, m) :: set name n r
  end.

Definition del (name : string) (es : entries) : entries :=
  filter (fun e => negb (String.eqb (fst e) name)) es.

Fixpoint lookup (p : path) (n : node) : option node :=
  match p with
  | [] => Some n
  | c :: p' =>
      match n with
      | Dir es =>
          match get c es with
          | Some n' => lookup p' n'
          | None => None
          end
      | File _ => None
      end
  end.

(** Walk down to the node at [d] and replace it by what [f] makes of it. *)
Fixpoint at_path (d : path) (f : node -> result node) (n : node) : result node :=
  match d with
  | [] => f n
  | c :: d' =>
      match n with
      | File _ => Raise NotADirectoryError
      | Dir es =>
          match get c es with
          | None => Raise FileNotFoundError
          | Some n' =>
              try! n'' <- at_path d' f n';
              Ok (Dir (set c n'' es))
          end
      end
  end.

(** The same walk, creating what is missing below the last directory that
    exists: [missing p'] is the node put for the remaining components. *)
Fixpoint ensure (p : path) (found : node -> result node)
    (missing : path -> node) (n : node) : result node :=
  match p with
  | [] => found n
  | c :: p' =>
      match n with
      | File _ => Raise NotADirectoryError
      | Dir es =>
          match get c es with
          | Some n' =>
              try! n'' <- ensure p' found missing n';
              Ok (Dir (set c n'' es))
          | None => Ok (Dir (set c (missing p') es))
          end
      end
  end.

Fixpoint split_last (p : path) : option (path * string) :=
  match p with
  | [] => None
  | c :: r =>
      match split_last r with
      | Some (parent, name) => Some (c :: parent, name)
      | None => Some ([], c)
      end
  end.

(** Act on the entry [name] of the directory that holds [p]. *)
Definition on_child (p : path) (f : string -> entries -> result entries)
    (root : node) : result node :=
  match split_last p with
  | None => Raise OSError
  | Some (parent, name) =>
      at_path parent
        (fun n =>
           match n with
           | Dir es => try! es' <- f name es; Ok (Dir es')
           | File _ => Raise NotADirectoryError
           end) root
  end.

Fixpoint path_eqb (p q : path) : bool :=
  match p, q with
  | [], [] => true
  | a :: p', b :: q' => String.eqb a b && path_eqb p' q'
  | _, _ => false
  end.

Fixpoint is_prefix (p q : path) : bool :=
  match p, q with
  | [], _ => true
  | a :: p', b :: q' => String.eqb a b && is_prefix p' q'
  | _ :: _, [] => false
  end.

(** [os.path.exists], [os.path.isdir] *)
Definition exists_ (p : path) (root : node) : bool :=
  match lookup p root with
  | Some _ => true
  | None => false
  end.

Definition isdir (p : path) (root : node) : bool :=
  match lookup p root with
  | Some (Dir _) => true
  | _ => false
  end.

(** [os.listdir] *)
Definition listdir (p : path) (root : node) : result (list string) :=
  match lookup p root with
  | Some (Dir es) => Ok (map fst es)
  | Some (File _) => Raise NotADirectoryError
  | None => Raise FileNotFoundError
  end.

(** [shutil.rmtree] *)
Definition rmtree (p : path) : node -> result node :=
  on_child p (fun name es =>
    match get name es with
    | Some (Dir _) => Ok (del name es)
    | Some (File _) => Raise NotADirectoryError
    | None => Raise FileNotFoundError
    end).

(** [os.rmdir] *)
Definition rmdir (p : path) : node -> result node :=
  on_child p (fun name es =>
    match get name es with
    | Some (Dir []) => Ok (del name es)
    | Some (Dir _) => Raise DirectoryNotEmptyError
    | Some (File _) => Raise NotADirectoryError
    | None => Raise FileNotFoundError
    end).

Fixpoint mkchain (p : path) : node :=
  match p with
  | [] => Dir []
  | c :: p' => Dir [(c, mkchain p')]
  end.

(** [os.makedirs(p)], [exist_ok] false *)
Definition makedirs (p : path) : node -> result node :=
  ensure p (fun _ => Raise FileExistsError) mkchain.

(** [os.rename] *)
Definition rename (src dst : path) (root : node) : result node :=
  match lookup src root with
  | None => Raise FileNotFoundError
  | Some n =>
      if path_eqb src dst then Ok root
      else if is_prefix src dst then Raise OSError
      else
        let allowed : result unit :=
          match lookup dst root, n with
          | Some (Dir []), Dir _ => Ok tt
          | Some (Dir _), Dir _ => Raise DirectoryNotEmptyError
          | Some (Dir _), File _ => Raise IsADirectoryError
          | Some (File _), Dir _ => Raise NotADirectoryError
          | _, _ => Ok tt
          end in
        try! _ <- allowed;
        try! root1 <- on_child src (fun name es => Ok (del name es)) root;
        on_child dst (fun name es => Ok (set name n es)) root1
  end.

(** [shutil.move] on one file system: a destination that is a directory
    receives the source inside it, under the source's base name. *)
Definition move (src dst : path) (root : node) : result node :=
  if isdir dst root then
    if path_eqb src dst then rename src dst root
    else
      match split_last src with
      | None => Raise OSError
      | Some (_, base) =>
          let real_dst := (dst ++ [base])%list in
          if exists_ real_dst root then Raise ShutilError
          else rename src real_dst root
      end
  else rename src dst root.

(** Writing a file ([open(p, 'wb')] and [write]). *)
Definition write_file (p : path) (c : content) : node -> result node :=
  on_child p (fun name es =>
    match get name es with
    | Some (Dir _) => Raise IsADirectoryError
    | _ => Ok (set name (File c) es)
    end).

(** [tarfile]: extracting one member below the root given. *)
Fixpoint fresh (k : member_kind) (p : path) : node :=
  match p with
  | [] => match k with MDir => Dir [] | MFile d => File (Bytes d) end
  | c :: p' => Dir [(c, fresh k p')]
  end.

Definition extract_member (p : path) (k : member_kind) : node -> result node :=
  ensure p
    (fun n =>
       match k, n with
       | MDir, Dir _ => Ok n
       | MDir, File _ => Raise FileExistsError
       | MFile d, File _ => Ok (File (Bytes d))
       | MFile _, Dir _ => Raise IsADirectoryError
       end)
    (fresh k).

Fixpoint ends_with (suffix s : string) : bool :=
  String.eqb s suffix ||
  match s with
  | String _ r => ends_with suffix r
  | EmptyString => false
  end.

(** The archive formats [shutil.unpack_archive] recognises by extension. *)
Definition known_archive_name (name : string) : bool :=
  existsb (fun suffix => ends_with suffix name)
    [".tar.gz"; ".tgz"; ".tar"; ".zip"; ".tar.bz2"; ".tbz2"; ".tar.xz"; ".txz"].

(** [os.path.basename] *)
Definition basename (p : path) : string :=
  match split_last p with
  | Some (_, name) => name
  | None => EmptyString
  end.

Fixpoint has_dot (s : string) : bool :=
  match s with
  | EmptyString => false
  | String c r => Ascii.eqb c "." || has_dot r
  end.

(** [os.path.splitext(name)[0]]: cut at the last dot, unless only dots come
    before it. *)
Fixpoint splitext_from (s : string) (nondot_before : bool) : string :=
  match s with
  | EmptyString => EmptyString
  | String c r =>
      if Ascii.eqb c "." && nondot_before && negb (has_dot r) then EmptyString
      else String c (splitext_from r (nondot_before || negb (Ascii.eqb c ".")))
  end.

Definition splitext_root (name : string) : string := splitext_from name false.

(** *** File-system programs: state passing, the state kept when raising *)

Definition F (A : Type) : Type := node -> result A * node.

Definition ret {A} (a : A) : F A := fun root => (Ok a, root).

Definition raise {A} (e : exn) : F A := fun root => (Raise e, root).

Definition bind {A B} (m : F A) (k : A -> F B) : F B :=
  fun root =>
    match m root with
    | (Ok a, root') => k a root'
    | (Raise e, root') => (Raise e, root')
    end.

(** A primitive either happens or raises and changes nothing. *)
Definition atomic (f : node -> result node) : F unit :=
  fun root =>
    match f root with
    | Ok root' => (Ok tt, root')
    | Raise e => (Raise e, root)
    end.

Definition query {A} (f : node -> result A) : F A :=
  fun root => (f root, root).

Fixpoint for_each {A} (xs : list A) (body : A -> F unit) : F unit :=
  match xs with
  | [] => ret tt
  | x :: r => bind (body x) (fun _ => for_each r body)
  end.

(** [tarfile.extractall(extract_dir)] *)
Definition extract_all (extract_dir : path) (ms : list member) : F unit :=
  for_each ms (fun m => atomic (extract_member (extract_dir ++ fst m)%list (snd m))).

(** [shutil.unpack_archive(filename, extract_dir)] *)
Definition unpack_archive (filename extract_dir : path) : F unit :=
  if known_archive_name (basename filename) then
    bind (query (fun root =>
            match lookup filename root with
            | Some (File (Archive ms)) => Ok ms
            | Some (File (Bytes _)) => Raise ReadError
            | Some (Dir _) => Raise IsADirectoryError
            | None => Raise FileNotFoundError
            end))
      (fun ms => extract_all extract_dir ms)
  else raise ReadError.

End FS.

(** ** The world the sandbox runs in *)

Local Open Scope list_scope.
Local Open Scope Z_scope.

(** A process spawned by [subprocess.Popen(commands, cwd=cwd,
    start_new_session=True, ...)]. *)
Record Process : Type := mkProcess {
  pid : Z;
  commands : list string;
  cwd : FS.path
}.

Inductive BintrayCall : Type :=
| LoadCredentials
| Download (package_name version : string).

Record World : Type := mkWorld {
  fs : FS.node;
  probes : list (IP.IPv4Address * Z);   (* bind probes made, latest last *)
  processes : list Process;             (* processes spawned, latest last *)
  bintray_calls : list BintrayCall;     (* calls to the resolver, latest last *)
  next_pid : Z
}.

Definition with_fs (root : FS.node) (w : World) : World :=
  mkWorld root (probes w) (processes w) (bintray_calls w) (next_pid w).

Inductive BintrayReply : Type :=
| Downloaded (file_name : string) (archive : FS.content)
| Unreachable
| HttpFailure (status : Z).

Record Args : Type := mkArgs {
  image_version : string;
  nr_of_containers : string;
  addr_range : IP.IPv4Network;
  image_dir : FS.path
}.

(** The collaborators of the module that are not part of it. *)
Record Env : Type := mkEnv {
  (** Modelled from the spec: [host.can_bind(address, port)], "attempts to
      bind a throwaway socket ... on that address"; each address of a range
      is probed at most once, so the answer is a function of the address. *)
  can_bind : IP.IPv4Address -> Z -> bool;
  (** Modelled from the spec: one "interface-alias command" of
      [host.addr_alias_setup_instructions], for an address and a netmask. *)
  alias_command : IP.IPv4Address -> IP.IPv4Address -> string;
  (** What running `java -version` through the shell gives. *)
  java_version : Subprocess.Completed;
  (** Modelled from the spec: what the artifact service answers to a
      download of a package at a version. *)
  bintray_reply : string -> string -> BintrayReply;
  bintray_credentials : string * string;
  (** The package names [sandbox_common.resolve_conductr_info] gives. *)
  core_package_name : string;
  agent_package_name : string;
  (** Modelled from the spec: [sandbox_stop.stop(args)], "stop any
      previously running sandbox (external collaborator)". *)
  sandbox_stop : Args -> World -> result unit * World
}.

(** Programs on the world: state passing, the state kept when raising. *)
Definition M (A : Type) : Type := World -> result A * World.

Definition ret {A} (a : A) : M A := fun w => (Ok a, w).

Definition raise {A} (e : exn) : M A := fun w => (Raise e, w).

Definition bind {A B} (m : M A) (k : A -> M B) : M B :=
  fun w =>
    match m w with
    | (Ok a, w') => k a w'
    | (Raise e, w') => (Raise e, w')
    end.

Notation "x <- m ;; k" := (bind m (fun x => k))
  (at level 61, m at next level, right associativity).
Notation "' pat <- m ;; k" := (bind m (fun x => match x with pat => k end))
  (at level 61, pat pattern, m at next level, right associativity).

Definition lift {A} (r : result A) : M A := fun w => (r, w).

Definition lift_fs {A} (m : FS.F A) : M A :=
  fun w => let '(r, root) := m (fs w) in (r, with_fs root w).

(** [try: m except ...: handler] *)
Definition try_except {A} (m : M A) (handler : exn -> M A) : M A :=
  fun w =>
    match m w with
    | (Ok a, w') => (Ok a, w')
    | (Raise e, w') => handler e w'
    end.

(** ** [find_bind_addrs] *)

Definition host_can_bind (env : Env) (ip_addr : IP.IPv4Address) (port : Z) : M bool :=
  fun w =>
    (Ok (can_bind env ip_addr port),
     mkWorld (fs w) (probes w ++ [(ip_addr, port)]) (processes w)
       (bintray_calls w) (next_pid w)).

(** Modelled from the spec: [host.addr_alias_setup_instructions(addrs,
    netmask)], "interface-alias commands" for the addresses given "plus the
    range's netmask": one command for each address. *)
Definition addr_alias_setup_instructions (env : Env)
    (addrs : list IP.IPv4Address) (netmask : IP.IPv4Address) : list string :=
  map (fun a => alias_command env a netmask) addrs.

(** The [for ip_addr in addr_range.hosts()] loop with its [break]. *)
Fixpoint find_bind_addrs_loop (env : Env) (nr_of_addrs : Z)
    (hosts : list IP.IPv4Address)
    (addrs_to_bind addrs_unavailable : list IP.IPv4Address)
  : M (list IP.IPv4Address * list IP.IPv4Address) :=
  match hosts with
  | [] => ret (addrs_to_bind, addrs_unavailable)
  | ip_addr :: rest =>
      bindable <- host_can_bind env ip_addr BIND_TEST_PORT ;;
      let '(addrs_to_bind, addrs_unavailable) :=
        if (bindable : bool) then (addrs_to_bind ++ [ip_addr], addrs_unavailable)
        else (addrs_to_bind, addrs_unavailable ++ [ip_addr]) in
      if nr_of_addrs <=? Z.of_nat (List.length addrs_to_bind)
      then ret (addrs_to_bind, addrs_unavailable)
      else find_bind_addrs_loop env nr_of_addrs rest addrs_to_bind addrs_unavailable
  end.

Definition find_bind_addrs (env : Env) (nr_of_addrs : Z)
    (addr_range : IP.IPv4Network) : M (list IP.IPv4Address) :=
  ' (addrs_to_bind, addrs_unavailable) <-
    find_bind_addrs_loop env nr_of_addrs (IP.hosts addr_range) [] [] ;;
  if Z.of_nat (List.length addrs_to_bind) <? nr_of_addrs then
    let nr_of_addr_setup := nr_of_addrs - Z.of_nat (List.length addrs_to_bind) in
    let setup_instructions :=
      addr_alias_setup_instructions env
        (Py.slice_to addrs_unavailable nr_of_addr_setup)
        (IP.netmask addr_range) in
    raise (BindAddressNotFoundError setup_instructions)
  else ret addrs_to_bind.

(** ** [obtain_sandbox_image] *)

(** The dictionaries of [sandbox_common.resolve_conductr_info]. *)
Record conductr_info : Type := mk_conductr_info {
  type : string;
  extraction_dir : FS.path;
  bintray_package_name : string
}.

(** Modelled from the spec: [sandbox_common.resolve_conductr_info(image_dir)],
    the descriptors of the two kinds; "the core binary will be expanded into
    the `${image_dir}/core`" and the agent binary into `${image_dir}/agent`. *)
Definition resolve_conductr_info (env : Env) (image_dir : FS.path)
  : conductr_info * conductr_info :=
  (mk_conductr_info "core" (image_dir ++ ["core"%string]) (core_package_name env),
   mk_conductr_info "agent" (image_dir ++ ["agent"%string]) (agent_package_name env)).

Definition BINTRAY_DOWNLOAD_REALM : string := "Bintray".
Definition BINTRAY_LIGHTBEND_ORG : string := "lightbend".
Definition BINTRAY_CONDUCTR_REPO : string := "commercial-releases".

Definition record_call (c : BintrayCall) : M unit :=
  fun w =>
    (Ok tt,
     mkWorld (fs w) (probes w) (processes w) (bintray_calls w ++ [c]) (next_pid w)).

(** Modelled from the spec: [bintray_resolver.load_bintray_credentials()],
    the credentials with which to "authenticate once against the remote
    artifact service". *)
Definition load_bintray_credentials (env : Env) : M (string * string) :=
  _ <- record_call LoadCredentials ;;
  ret (bintray_credentials env).

(** Modelled from the spec: [bintray_resolver.bintray_download]; "the
    download will be saved into `${image_dir}/${filename}.tgz.tmp`. Once
    download is complete, this file will be moved to
    `${image_dir}/${filename}.tgz`". A connection failure raises
    [ConnectionError], an HTTP error status raises [HTTPError]. *)
Definition bintray_download (env : Env) (image_dir : FS.path)
    (org repo package_name : string) (auth : string * string * string)
    (version : string) : M (bool * string * FS.path) :=
  _ <- record_call (Download package_name version) ;;
  match bintray_reply env package_name version with
  | Unreachable => raise ConnectionError
  | HttpFailure _ => raise HTTPError
  | Downloaded file_name archive =>
      let tmp_path := image_dir ++ [(file_name ++ ".tmp")%string] in
      let download_path := image_dir ++ [file_name] in
      _ <- lift_fs (FS.atomic (FS.write_file tmp_path archive)) ;;
      _ <- lift_fs (FS.atomic (FS.rename tmp_path download_path)) ;;
      ret (true, file_name, download_path)
  end.

Definition resolve_binary_from_cache (binary_cache_path : FS.path)
  : M (option FS.path) :=
  fun w =>
    (Ok (if FS.exists_ binary_cache_path (fs w) then Some binary_cache_path
         else None), w).

Definition core_cache_path (image_dir : FS.path) (image_version : string) : FS.path :=
  image_dir ++ [("conductr-" ++ image_version ++ ".tgz")%string].

Definition agent_cache_path (image_dir : FS.path) (image_version : string) : FS.path :=
  image_dir ++ [("conductr-agent-" ++ image_version ++ ".tgz")%string].

(** The test [(not core_path) or (not agent_path)] is the second case of
    the match; inside it, [if not core_path] is the match on [core_path]. *)
Definition resolve_binaries (env : Env) (image_dir : FS.path)
    (image_version : string) (core_info agent_info : conductr_info)
  : M (FS.path * FS.path) :=
  core_path <- resolve_binary_from_cache (core_cache_path image_dir image_version) ;;
  agent_path <- resolve_binary_from_cache (agent_cache_path image_dir image_version) ;;
  match core_path, agent_path with
  | Some core_path, Some agent_path => ret (core_path, agent_path)
  | _, _ =>
      try_except
        (' (bintray_username, bintray_password) <- load_bintray_credentials env ;;
         let bintray_auth :=
           (BINTRAY_DOWNLOAD_REALM, bintray_username, bintray_password) in
         core_path <-
           match core_path with
           | Some p => ret p
           | None =>
               ' (_, _, p) <- bintray_download env image_dir BINTRAY_LIGHTBEND_ORG
                               BINTRAY_CONDUCTR_REPO (bintray_package_name core_info)
                               bintray_auth image_version ;;
               ret p
           end ;;
         agent_path <-
           match agent_path with
           | Some p => ret p
           | None =>
               ' (_, _, p) <- bintray_download env image_dir BINTRAY_LIGHTBEND_ORG
                               BINTRAY_CONDUCTR_REPO (bintray_package_name agent_info)
                               bintray_auth image_version ;;
               ret p
           end ;;
         ret (core_path, agent_path))
        (fun e =>
           match e with
           | ConnectionError => raise (BintrayUnreachableError "Bintray is unreachable.")
           | HTTPError =>
               raise (SandboxImageNotFoundError (type core_info) image_version)
           | _ => raise e
           end)
  end.

Definition extract_binary (path : FS.path) (info : conductr_info) : FS.F FS.path :=
  let extraction_dir := extraction_dir info in
  FS.bind (FS.query (fun root => Ok (FS.exists_ extraction_dir root))) (fun present =>
  FS.bind (if (present : bool) then FS.atomic (FS.rmtree extraction_dir)
           else FS.ret tt) (fun _ =>
  FS.bind (FS.atomic (FS.makedirs extraction_dir)) (fun _ =>
  FS.bind (FS.unpack_archive path extraction_dir) (fun _ =>
  let binary_basename := FS.splitext_root (FS.basename path) in
  let extraction_subdir := extraction_dir ++ [binary_basename] in
  FS.bind (FS.query (FS.listdir extraction_subdir)) (fun filenames =>
  FS.bind (FS.for_each filenames (fun filename =>
             FS.atomic (FS.move (extraction_subdir ++ [filename])
                                (extraction_dir ++ [filename])))) (fun _ =>
  FS.bind (FS.atomic (FS.rmdir extraction_subdir)) (fun _ =>
  FS.ret extraction_dir))))))).

Definition obtain_sandbox_image (env : Env) (image_dir : FS.path)
    (image_version : string) : M (FS.path * FS.path) :=
  let '(core_info, agent_info) := resolve_conductr_info env image_dir in
  ' (core_binary_path, agent_binary_path) <-
    resolve_binaries env image_dir image_version core_info agent_info ;;
  core_extracted_dir <- lift_fs (extract_binary core_binary_path core_info) ;;
  agent_extracted_dir <- lift_fs (extract_binary agent_binary_path agent_info) ;;
  ret (core_extracted_dir, agent_extracted_dir).

(** ** [start_core_instances], [start_agent_instances] *)

(** The text of a path, and the path of a text. *)
Definition path_str (p : FS.path) : string :=
  fold_right (fun c s => ("/" ++ c ++ s)%string) EmptyString p.

Definition parse_path (s : string) : FS.path :=
  filter (fun c => negb (String.eqb c EmptyString)) (Py.split "/" s).

(** [subprocess.Popen(commands, cwd=cwd, start_new_session=True,
    stdout=DEVNULL, stdin=DEVNULL, stderr=DEVNULL).pid]: the executable must
    be a file and the working directory a directory. *)
Definition Popen (commands : list string) (cwd : FS.path) : M Z :=
  fun w =>
    match commands with
    | [] => (Raise IndexError, w)
    | executable :: _ =>
        match FS.lookup cwd (fs w), FS.lookup (parse_path executable) (fs w) with
        | Some (FS.Dir _), Some (FS.File _) =>
            (Ok (next_pid w),
             mkWorld (fs w) (probes w)
               (processes w ++ [mkProcess (next_pid w) commands cwd])
               (bintray_calls w) (next_pid w + 1))
        | Some (FS.File _), _ => (Raise NotADirectoryError, w)
        | _, _ => (Raise FileNotFoundError, w)
        end
    end.

(** The commands of the core instance [idx], bound to [bind_addr]. *)
Definition core_commands (core_extracted_dir : FS.path)
    (bind_addrs : list IP.IPv4Address) (idx : nat) (bind_addr : IP.IPv4Address)
  : result (list string) :=
  let commands :=
    [ (path_str core_extracted_dir ++ "/bin/conductr")%string;
      ("-Dconductr.ip=" ++ IP.str bind_addr)%string ] in
  if (0 <? idx)%nat then
    try! seed <- Py.index bind_addrs 0;
    Ok (commands ++
        [ "--seed"%string;
          (IP.str seed ++ ":" ++ Py.str CONDUCTR_AKKA_REMOTING_PORT)%string ])
  else Ok commands.

(** [for idx, bind_addr in enumerate(bind_addrs)], from [idx] on. *)
Fixpoint start_core_loop (core_extracted_dir : FS.path)
    (bind_addrs : list IP.IPv4Address) (idx : nat)
    (todo : list IP.IPv4Address) (pids : list Z) : M (list Z) :=
  match todo with
  | [] => ret pids
  | bind_addr :: rest =>
      commands <- lift (core_commands core_extracted_dir bind_addrs idx bind_addr) ;;
      pid <- Popen commands core_extracted_dir ;;
      start_core_loop core_extracted_dir bind_addrs (S idx) rest (pids ++ [pid])
  end.

Definition start_core_instances (core_extracted_dir : FS.path)
    (bind_addrs : list IP.IPv4Address) : M (list Z) :=
  start_core_loop core_extracted_dir bind_addrs 0 bind_addrs [].

Definition agent_commands (agent_extracted_dir : FS.path)
    (bind_addr : IP.IPv4Address) : list string :=
  [ (path_str agent_extracted_dir ++ "/bin/conductr-agent")%string;
    ("-Dconductr.agent.ip=" ++ IP.str bind_addr)%string;
    "--core-node"%string;
    (IP.str bind_addr ++ ":" ++ Py.str CONDUCTR_AKKA_REMOTING_PORT)%string ].

Fixpoint start_agent_loop (agent_extracted_dir : FS.path) (idx : nat)
    (todo : list IP.IPv4Address) (pids : list Z) : M (list Z) :=
  match todo with
  | [] => ret pids
  | bind_addr :: rest =>
      let commands := agent_commands agent_extracted_dir bind_addr in
      pid <- Popen commands agent_extracted_dir ;;
      start_agent_loop agent_extracted_dir (S idx) rest (pids ++ [pid])
  end.

Definition start_agent_instances (agent_extracted_dir : FS.path)
    (bind_addrs : list IP.IPv4Address) : M (list Z) :=
  start_agent_loop agent_extracted_dir 0 bind_addrs [].

(** ** [SandboxRunResult] and [run] *)

Record SandboxRunResult : Type := mkSandboxRunResult {
  core_pids : list Z;
  core_addrs : list IP.IPv4Address;
  agent_pids : list Z;
  agent_addrs : list IP.IPv4Address;
  nr_of_proxy_instances : Z;
  host : string
}.

(** [SandboxRunResult.__init__] *)
Definition SandboxRunResult_init (core_pids : list Z)
    (core_addrs : list IP.IPv4Address) (agent_pids : list Z)
    (agent_addrs : list IP.IPv4Address) (nr_of_proxy_instances : Z)
  : result SandboxRunResult :=
  try! first <- Py.index core_addrs 0;
  Ok (mkSandboxRunResult core_pids core_addrs agent_pids agent_addrs
        nr_of_proxy_instances (IP.str first)).

Definition run (env : Env) (args : Args) (features : list string)
  : M SandboxRunResult :=
  ' (nr_of_core_instances, nr_of_agent_instances) <-
    lift (instance_count (image_version args) (nr_of_containers args)) ;;
  _ <- lift (validate_jvm_support (java_version env)) ;;
  _ <- sandbox_stop env args ;;
  bind_addrs <- find_bind_addrs env
                  (Z.max nr_of_core_instances nr_of_agent_instances)
                  (addr_range args) ;;
  ' (core_extracted_dir, agent_extracted_dir) <-
    obtain_sandbox_image env (image_dir args) (image_version args) ;;
  let core_addrs := Py.slice_to bind_addrs nr_of_core_instances in
  core_pids <- start_core_instances core_extracted_dir core_addrs ;;
  let agent_addrs := Py.slice_to bind_addrs nr_of_agent_instances in
  agent_pids <- start_agent_instances agent_extracted_dir
                  (Py.slice_to bind_addrs nr_of_agent_instances) ;;
  lift (SandboxRunResult_init core_pids core_addrs agent_pids agent_addrs
          NR_OF_PROXY_INSTANCE).

(** ** A concrete machine

    An image directory with both archives of version 2.1.0 in its cache, a
    JVM 1.8, every address of 192.168.128.0/24 bindable, and an artifact
    service that cannot be reached. *)

Module Demo.

Definition newline : string := String "010"%char EmptyString.

Definition quoted (s : string) : string :=
  (String double_quote s ++ String double_quote EmptyString)%string.

Definition core_archive : FS.content :=
  FS.Archive
    [ (["conductr-2.1.0"%string], FS.MDir);
      (["conductr-2.1.0"; "bin"; "conductr"]%string, FS.MFile "#!/bin/sh core");
      (["conductr-2.1.0"; "conf"; "application.ini"]%string, FS.MFile "-Xmx512m") ].

Definition agent_archive : FS.content :=
  FS.Archive
    [ (["conductr-agent-2.1.0"; "bin"; "conductr-agent"]%string,
       FS.MFile "#!/bin/sh agent") ].

Definition images : FS.path := ["home"; "images"]%string.

Definition root : FS.node :=
  FS.Dir
    [ ("home"%string,
       FS.Dir
         [ ("images"%string,
            FS.Dir
              [ ("conductr-2.1.0.tgz"%string, FS.File core_archive);
                ("conductr-agent-2.1.0.tgz"%string, FS.File agent_archive) ]) ]) ].

Definition world : World := mkWorld root [] [] [] 1000.

Definition java_1_8 : Subprocess.Completed :=
  Subprocess.mkCompleted 0
    ("java version " ++ quoted "1.8.0_72" ++ newline ++
     "Java(TM) SE Runtime Environment (build 1.8.0_72-b15)" ++ newline)%string.

Definition ifconfig_alias (a netmask : IP.IPv4Address) : string :=
  ("sudo ifconfig lo0 alias " ++ IP.str a ++ " " ++ IP.str netmask)%string.

Definition env : Env :=
  mkEnv (fun _ _ => true) ifconfig_alias java_1_8 (fun _ _ => Unreachable)
    ("user"%string, "secret"%string) "ConductR-Universal" "ConductR-Agent-Universal"
    (fun _ w => (Ok tt, w)).

Definition range24 : IP.IPv4Network :=
  IP.mkNetwork (IP.of_octets 192 168 128 0) 24.

Definition range30 : IP.IPv4Network :=
  IP.mkNetwork (IP.of_octets 192 168 128 0) 30.

Definition args (expression : string) : Args :=
  mkArgs "2.1.0" expression range24 images.

(** The same machine with no address that can be bound. *)
Definition env_unbindable : Env :=
  mkEnv (fun _ _ => false) ifconfig_alias java_1_8 (fun _ _ => Unreachable)
    ("user"%string, "secret"%string) "ConductR-Universal" "ConductR-Agent-Universal"
    (fun _ w => (Ok tt, w)).

(** The same machine with the agent archive missing from the cache and an
    artifact service that answers 404. *)
Definition root_core_only : FS.node :=
  FS.Dir
    [ ("home"%string,
       FS.Dir
         [ ("images"%string,
            FS.Dir [ ("conductr-2.1.0.tgz"%string, FS.File core_archive) ]) ]) ].

Definition world_core_only : World := mkWorld root_core_only [] [] [] 1000.

Definition env_not_found : Env :=
  mkEnv (fun _ _ => true) ifconfig_alias java_1_8 (fun _ _ => HttpFailure 404)
    ("user"%string, "secret"%string) "ConductR-Universal" "ConductR-Agent-Universal"
    (fun _ w => (Ok tt, w)).



(** The first machine once both archives are extracted, and the first two
    hosts of its range. *)
Definition world_extracted : World :=
  snd (obtain_sandbox_image env images "2.1.0" world).

Definition two_addrs : list IP.IPv4Address :=
  [IP.of_octets 192 168 128 1; IP.of_octets 192 168 128 2].

(** A machine whose `java` is missing: the shell exits with status 127. *)
Definition java_missing : Subprocess.Completed :=
  Subprocess.mkCompleted 127 ("/bin/sh: java: command not found" ++ newline)%string.

(** A `java -version` that prints its version and exits with status 1. *)
Definition java_failing : Subprocess.Completed :=
  Subprocess.mkCompleted 1 (Subprocess.output java_1_8).

End Demo.

(** ** Vocabulary of the properties *)

Local Open Scope string_scope.
Local Open Scope Z_scope.



(** A result that is neither a CalledProcessError nor a JavaCallError. *)
Definition no_call_error {A} (r : result A) : Prop :=
  match r with
  | Raise (CalledProcessError _ _) => False
  | Raise (JavaCallError _) => False
  | _ => True
  end.

(** The bind probe of [find_bind_addrs] on an address, and its outcome. *)
Definition probe_of (a : IP.IPv4Address) : IP.IPv4Address * Z := (a, BIND_TEST_PORT).

Definition bindable (env : Env) (a : IP.IPv4Address) : bool :=
  can_bind env a BIND_TEST_PORT.

Definition unbindable (env : Env) (a : IP.IPv4Address) : bool :=
  negb (can_bind env a BIND_TEST_PORT).

(** Addresses in strictly ascending order. *)
Definition ascending (l : list IP.IPv4Address) : Prop :=
  StronglySorted (fun a b => IP.to_int a < IP.to_int b) l.

(** The value given to a command-line flag: the argument that follows it. *)
Fixpoint flag_value (flag : string) (commands : list string) : option string :=
  match commands with
  | [] => None
  | c :: r => if String.eqb c flag then hd_error r else flag_value flag r
  end.

(** The text of an address and a port, as in ['{}:{}'.format(addr, port)]. *)
Definition addr_port (a : IP.IPv4Address) (port : Z) : string :=
  IP.str a ++ ":" ++ Py.str port.

(** The node put at [d], when there is one: what [FS.at_path] leaves. *)
Fixpoint graft (d : FS.path) (x : FS.node) (n : FS.node) : FS.node :=
  match d with
  | [] => x
  | c :: d' =>
      match n with
      | FS.Dir es =>
          match FS.get c es with
          | Some n' => FS.Dir (FS.set c (graft d' x n') es)
          | None => n
          end
      | FS.File _ => n
      end
  end.



(** [big], an operation on the whole tree, is [small] on the subtree at [d]. *)
Definition local_at (d : FS.path) (big small : FS.node -> result FS.node) : Prop :=
  forall root n,
    FS.lookup d root = Some n ->
    big root = rbind (small n) (fun n' => Ok (graft d n' root)).


(** ** More machines *)

Module Samples.

(** An artifact service that serves the agent archive of version 2.1.0. *)
Definition env_serving_agent : Env :=
  mkEnv (fun _ _ => true) Demo.ifconfig_alias Demo.java_1_8
    (fun _ _ => Downloaded "conductr-agent-2.1.0.tgz" Demo.agent_archive)
    ("user"%string, "secret"%string) "ConductR-Universal" "ConductR-Agent-Universal"
    (fun _ w => (Ok tt, w)).

End Samples.

(** A string none of whose characters is [bad]. *)
Fixpoint avoids (bad : ascii -> bool) (s : string) : bool :=
  match s with
  | EmptyString => true
  | String c r => negb (bad c) && avoids bad r
  end.

(** What may not occur in the rest of a version: a blank, a line break, a
    double quote. *)
Definition breaks_version (c : ascii) : bool :=
  Ascii.eqb c " " || Py.is_linebreak c || Ascii.eqb c double_quote.

(** The first line of `java -version` for a vendor and a version. *)
Definition version_line (vendor version : string) : string :=
  (vendor ++ " version " ++ String double_quote (version ++ String double_quote EmptyString))%string.

(** What follows the first line: nothing, or a line break and more. *)
Definition starts_new_line (s : string) : Prop :=
  s = EmptyString \/ exists c r, s = String c r /\ Py.is_linebreak c = true.


(** ** [SandboxRunResult.__eq__] *)

Fixpoint list_eqb {A} (eqb : A -> A -> bool) (xs ys : list A) : bool :=
  match xs, ys with
  | [], [] => true
  | x :: xs', y :: ys' => eqb x y && list_eqb eqb xs' ys'
  | _, _ => false
  end.

(** [self.__dict__ == other.__dict__]: the six attributes set by
    [__init__], compared one by one. *)
Definition dict_eq (self other : SandboxRunResult) : bool :=
  list_eqb Z.eqb (core_pids self) (core_pids other) &&
  list_eqb IP.eqb (core_addrs self) (core_addrs other) &&
  list_eqb Z.eqb (agent_pids self) (agent_pids other) &&
  list_eqb IP.eqb (agent_addrs self) (agent_addrs other) &&
  Z.eqb (nr_of_proxy_instances self) (nr_of_proxy_instances other) &&
  String.eqb (host self) (host other).

(** [other] is [None] for an object that is no SandboxRunResult. *)
Definition SandboxRunResult_eq (self : SandboxRunResult)
    (other : option SandboxRunResult) : bool :=
  match other with
  | Some other => dict_eq self other
  | None => false
  end.

(** ** [log_run_attempt] *)

Inductive LogRecord : Type :=
| LogInfo (message : string)
| LogError (message : string).

(** What [log_run_attempt] does: the records it logs, and the command
    lines it hands to [conduct_main.run]. [headline] is
    [screen_utils.headline]; [no_wait] is [args.no_wait]. *)
Definition log_run_attempt (headline : string -> string) (no_wait : bool)
    (run_result : SandboxRunResult) (is_started : bool) (wait_timeout : Z)
  : list LogRecord * list (list string) :=
  if negb no_wait then
    if is_started then
      let nr_instance_core := Z.of_nat (List.length (core_pids run_result)) in
      let plural_core := if 1 <? nr_instance_core then "s"%string else EmptyString in
      let nr_instance_agent := Z.of_nat (List.length (agent_pids run_result)) in
      let plural_agents := if 1 <? nr_instance_agent then "s"%string else EmptyString in
      ([ LogInfo (headline "Summary");
         LogInfo "ConductR has been started:";
         LogInfo ("  core: " ++ Py.str nr_instance_core ++ " instance" ++ plural_core)%string;
         LogInfo ("  agent: " ++ Py.str nr_instance_agent ++ " instance" ++ plural_agents)%string;
         LogInfo "Check current bundle status with:";
         LogInfo "  conduct info" ],
       [ ["info"; "--host"; host run_result]%string ])
    else
      ([ LogInfo (headline "Summary");
         LogError ("ConductR has not been started within " ++ Py.str wait_timeout ++ " seconds.")%string;
         LogError "Set the env CONDUCTR_SANDBOX_WAIT_RETRY_INTERVAL to increase the wait timeout." ],
       [])
  else ([], []).

Definition is_error (r : LogRecord) : bool :=
  match r with
  | LogError _ => true
  | LogInfo _ => false
  end.

(** * Properties *)

Local Open Scope string_scope.
Local Open Scope Z_scope.

(** ** Strings *)

Section StringFacts.




End StringFacts.



Lemma is_digit_digit_of (c : ascii) :
  Py.is_digit c = true -> exists d, Py.digit_of c = Some d /\ 0 <= d < 10.
Proof.
  unfold Py.digit_of, Py.is_digit. intros H. rewrite H.
  apply andb_true_iff in H. destruct H as [H1 H2].
  apply Nat.leb_le in H1, H2.
  eexists; split; [reflexivity|lia].
Qed.






(** ** White space, signs and separators around runs of digits *)










(** ** The derivative matcher finds every word of the language *)










(** ** [instance_count] on what is not an instance expression *)

(** C3. The claim: every expression that is neither an integer nor exactly
    <int>:<int> fails with InstanceCountError. The function searches the
    pattern anywhere in the expression and takes the first and the last
    part: "1:2:3" is accepted as (1, 3), and "a1:2" escapes with the
    ValueError of [int]. *)
Theorem instance_count_unanchored :
  instance_count "2.1.0" "1:2:3" = Ok (1, 3) /\
  instance_count "2.1.0" "a1:2" = Raise ValueError /\
  instance_count "2.1.0" "1:2b" = Raise ValueError /\
  instance_count "2.1.0" "abc" =
    Raise (InstanceCountError "2.1.0" "abc" instance_count_message).
Proof. repeat split; vm_compute; reflexivity. Qed.

(** ** [validate_jvm_support] and the exit status of `java -version` *)

Lemma getoutput_total (p : Subprocess.Completed) :
  exists s, Subprocess.getoutput p = Ok s.
Proof.
  unfold Subprocess.getoutput, Subprocess.getstatusoutput, Subprocess.check_output.
  destruct (Subprocess.returncode p =? 0); simpl; eexists; reflexivity.
Qed.

Lemma int_raises (s : string) (e : exn) : Py.int s = Raise e -> e = ValueError.
Proof.
  unfold Py.int.
  destruct (match Py.strip s with
            | String "+" r => (1, r)
            | String "-" r => (-1, r)
            | _ => (1, Py.strip s)
            end) as [sign digits].
  destruct (Py.int_digits digits 0 false); congruence.
Qed.

Lemma index_raises {A} (xs : list A) (i : nat) (e : exn) :
  Py.index xs i = Raise e -> e = IndexError.
Proof. unfold Py.index. destruct (nth_error xs i); congruence. Qed.

Lemma no_call_error_index {A B} (xs : list A) (i : nat) (k : A -> result B) :
  (forall a, no_call_error (k a)) -> no_call_error (rbind (Py.index xs i) k).
Proof.
  intros H. destruct (Py.index xs i) eqn:E; [apply H|].
  apply index_raises in E. subst. exact I.
Qed.

Lemma no_call_error_int {B} (s : string) (k : Z -> result B) :
  (forall a, no_call_error (k a)) -> no_call_error (rbind (Py.int s) k).
Proof.
  intros H. destruct (Py.int s) eqn:E; [apply H|].
  apply int_raises in E. subst. exact I.
Qed.

(** C9. The claim: a nonzero exit status of the probe command makes the
    validation fail with JavaCallError. [getoutput] ignores the exit status,
    so JavaCallError is never raised: a missing `java` (status 127) is
    reported as JavaVersionParseError, and a probe that prints a supported
    version and exits with status 1 is accepted. *)
Theorem validate_jvm_support_ignores_exit_status :
  (forall java message, validate_jvm_support java <> Raise (JavaCallError message)) /\
  validate_jvm_support Demo.java_missing =
    Raise (JavaVersionParseError "/bin/sh: java: command not found") /\
  Subprocess.returncode Demo.java_failing <> 0 /\
  validate_jvm_support Demo.java_failing = Ok tt.
Proof.
  split; [|repeat split; vm_compute; congruence].
  intros java message. unfold validate_jvm_support. cbv zeta.
  match goal with
  | |- (match ?b with _ => _ end) <> _ =>
      assert (C : no_call_error b);
      [|destruct b as [|[]]; simpl in C; try contradiction; congruence]
  end.
  destruct (getoutput_total java) as [s ->]. cbn [rbind].
  repeat first
    [ exact I
    | apply no_call_error_index; intros ?
    | apply no_call_error_int; intros ?
    | match goal with
      | |- no_call_error (if ?c then _ else _) => destruct c
      | |- no_call_error (match ?x with _ => _ end) => destruct x
      end ].
Qed.

(** ** [find_bind_addrs] *)

Local Open Scope list_scope.
Local Open Scope Z_scope.

Section BindAddresses.

Variable env : Env.
Variable k : Z.

Lemma world_eta (w : World) :
  mkWorld (fs w) (probes w) (processes w) (bintray_calls w) (next_pid w) = w.
Proof. destruct w; reflexivity. Qed.

(** The loop scans a prefix of the hosts; it stops either at the end of the
    range, short of [k] addresses, or at the address that makes them [k]. *)
Lemma find_bind_addrs_loop_spec (hosts : list IP.IPv4Address) :
  forall tb un w,
  Z.of_nat (List.length tb) < k ->
  exists scanned rest,
    hosts = scanned ++ rest /\
    find_bind_addrs_loop env k hosts tb un w =
      (Ok (tb ++ filter (bindable env) scanned,
           un ++ filter (unbindable env) scanned),
       mkWorld (fs w) (probes w ++ map probe_of scanned) (processes w)
         (bintray_calls w) (next_pid w)) /\
    ((rest = [] /\
      Z.of_nat (List.length (tb ++ filter (bindable env) scanned)) < k) \/
     (Z.of_nat (List.length (tb ++ filter (bindable env) scanned)) = k /\
      exists pre x, scanned = pre ++ [x] /\ bindable env x = true)).
Proof.
  induction hosts as [|ip hs IH]; intros tb un w Hlt.
  - exists [], []. simpl. rewrite !app_nil_r, world_eta.
    repeat split. left. split; [reflexivity|assumption].
  - cbn [find_bind_addrs_loop]. unfold bind at 1. cbn [host_can_bind].
    destruct (can_bind env ip BIND_TEST_PORT) eqn:Hcb.
    + destruct (k <=? Z.of_nat (List.length (tb ++ [ip]))) eqn:Hk.
      * exists [ip], hs. unfold bindable, unbindable. cbn [filter map app].
        rewrite Hcb. cbn [negb]. rewrite app_nil_r.
        repeat split. right. apply Z.leb_le in Hk.
        rewrite length_app in *. cbn [List.length] in *.
        split; [lia|]. exists [], ip. split; [reflexivity|exact Hcb].
      * apply Z.leb_gt in Hk.
        destruct (IH (tb ++ [ip]) un
                    (mkWorld (fs w) (probes w ++ [(ip, BIND_TEST_PORT)])
                       (processes w) (bintray_calls w) (next_pid w)) Hk)
          as (scanned & rest & Hh & Hrun & Hend).
        exists (ip :: scanned), rest. unfold bindable, unbindable in *.
        cbn [filter map app]. rewrite Hcb. cbn [negb].
        cbn [fs probes processes bintray_calls next_pid] in Hrun.
        rewrite <- !app_assoc in Hrun. rewrite <- !app_assoc in Hend.
        cbn [app] in Hrun, Hend.
        split; [now rewrite Hh|]. split; [exact Hrun|].
        destruct Hend as [Hend|[Hlen (pre & x & Hs & Hx)]]; [left; exact Hend|].
        right. split; [exact Hlen|].
        exists (ip :: pre), x. split; [now rewrite Hs|exact Hx].
    + assert (Hk : (k <=? Z.of_nat (List.length tb)) = false)
        by (apply Z.leb_gt; lia).
      rewrite Hk.
      destruct (IH tb (un ++ [ip])
                  (mkWorld (fs w) (probes w ++ [(ip, BIND_TEST_PORT)])
                     (processes w) (bintray_calls w) (next_pid w)) Hlt)
        as (scanned & rest & Hh & Hrun & Hend).
      exists (ip :: scanned), rest. unfold bindable, unbindable in *.
      cbn [filter map app]. rewrite Hcb. cbn [negb].
      cbn [fs probes processes bintray_calls next_pid] in Hrun.
      rewrite <- !app_assoc in Hrun. cbn [app] in Hrun.
      split; [now rewrite Hh|]. split; [exact Hrun|].
      destruct Hend as [Hend|[Hlen (pre & x & Hs & Hx)]]; [left; exact Hend|].
      right. split; [exact Hlen|].
      exists (ip :: pre), x. split; [now rewrite Hs|exact Hx].
Qed.

End BindAddresses.

(** *** The hosts of a range come in ascending order *)

Lemma range_from_sorted (lo : Z) (n : nat) :
  forall s, StronglySorted Z.lt (map (fun i => lo + Z.of_nat i) (seq s n)).
Proof.
  induction n as [|n IH]; intros s; cbn [seq map]; constructor.
  - apply IH.
  - apply Forall_forall. intros x Hx. apply in_map_iff in Hx.
    destruct Hx as (i & <- & Hi). apply in_seq in Hi. lia.
Qed.

Lemma ascending_map (l : list Z) :
  StronglySorted Z.lt l -> ascending (map IP.mkAddress l).
Proof.
  unfold ascending. induction 1 as [|a l _ IH Hall]; cbn [map]; constructor.
  - exact IH.
  - apply Forall_forall. intros x Hx. apply in_map_iff in Hx.
    destruct Hx as (z & <- & Hz). cbn [IP.to_int].
    rewrite Forall_forall in Hall. now apply Hall.
Qed.

Lemma hosts_ascending (n : IP.IPv4Network) : ascending (IP.hosts n).
Proof.
  unfold IP.hosts.
  destruct (IP.prefixlen n =? 31);
    [apply ascending_map, range_from_sorted|].
  destruct (IP.prefixlen n =? 32);
    [|apply ascending_map, range_from_sorted].
  repeat constructor.
Qed.

Lemma ascending_app_l (l1 l2 : list IP.IPv4Address) :
  ascending (l1 ++ l2) -> ascending l1.
Proof.
  unfold ascending. induction l1 as [|a l1 IH]; cbn [app]; intros H;
    [constructor|].
  apply StronglySorted_inv in H. destruct H as [Hs Hall].
  constructor; [now apply IH|].
  apply Forall_app in Hall. tauto.
Qed.

Lemma ascending_filter (f : IP.IPv4Address -> bool) (l : list IP.IPv4Address) :
  ascending l -> ascending (filter f l).
Proof.
  unfold ascending. induction 1 as [|a l _ IH Hall]; cbn [filter];
    [constructor|].
  destruct (f a); [|exact IH]. constructor; [exact IH|].
  rewrite Forall_forall in *. intros x Hx. apply filter_In in Hx.
  apply Hall. tauto.
Qed.

(** C4, as the code has it. For every count k >= 1 and every range, when
    the allocation succeeds it returns exactly k addresses, in ascending
    order, taken from the hosts of the range; each was probed on the test
    port and found bindable; the probes are those of a prefix of the hosts
    that ends at the k-th bindable address, so no later host is probed. *)
Theorem find_bind_addrs_success (env : Env) (k : Z) (range : IP.IPv4Network)
    (w w' : World) (addrs : list IP.IPv4Address)
    (Hk : 1 <= k)
    (H : find_bind_addrs env k range w = (Ok addrs, w')) :
  Z.of_nat (List.length addrs) = k /\
  ascending addrs /\
  (exists pre x rest,
      IP.hosts range = (pre ++ [x]) ++ rest /\
      addrs = filter (bindable env) pre ++ [x] /\
      probes w' = probes w ++ map probe_of (pre ++ [x])) /\
  (forall a, In a addrs ->
      In a (IP.hosts range) /\ can_bind env a BIND_TEST_PORT = true /\
      In (a, BIND_TEST_PORT) (probes w')).
Proof.
  unfold find_bind_addrs in H. unfold bind at 1 in H.
  destruct (find_bind_addrs_loop_spec env k (IP.hosts range) [] [] w)
    as (scanned & rest & Hh & Hrun & Hend); [cbn; lia|].
  rewrite Hrun in H. cbn [app] in H, Hend.
  destruct Hend as [[_ Hlt]|[Hlen (pre & x & Hs & Hx)]].
  - apply Z.ltb_lt in Hlt. rewrite Hlt in H. discriminate H.
  - assert (Hge : (Z.of_nat (List.length (filter (bindable env) scanned)) <? k) = false)
      by (apply Z.ltb_ge; lia).
    rewrite Hge in H. unfold ret in H. injection H as <- <-.
    cbn [probes]. subst scanned.
    assert (Hf : filter (bindable env) (pre ++ [x]) = filter (bindable env) pre ++ [x])
      by (rewrite filter_app; cbn [filter]; now rewrite Hx).
    split; [exact Hlen|]. split.
    { apply ascending_filter, ascending_app_l with (l2 := rest).
      rewrite <- Hh. apply hosts_ascending. }
    split.
    { exists pre, x, rest. auto. }
    intros a Ha. apply filter_In in Ha. destruct Ha as [Hin Hb].
    split; [rewrite Hh; apply in_or_app; now left|].
    split; [exact Hb|].
    apply in_or_app. right. now apply (in_map probe_of).
Qed.

Lemma find_bind_addrs_success_witness :
  exists w' addrs,
    find_bind_addrs Demo.env 2 Demo.range30 Demo.world = (Ok addrs, w') /\
    Z.of_nat (List.length addrs) = 2.
Proof.
  eexists. eexists. split; [vm_compute; reflexivity|].
  eapply (find_bind_addrs_success Demo.env 2 Demo.range30 Demo.world);
    [lia|vm_compute; reflexivity].
Defined.

(** The claim as stated, for every count: with k = 0 the loop still probes
    the first host, and returns it when it can be bound. *)
Lemma find_bind_addrs_count_zero :
  exists w' addrs,
    find_bind_addrs Demo.env 0 Demo.range30 Demo.world = (Ok addrs, w') /\
    Z.of_nat (List.length addrs) <> 0 /\
    probes w' <> probes Demo.world.
Proof.
  eexists. eexists. split; [vm_compute; reflexivity|].
  split; [vm_compute|cbn]; discriminate.
Qed.

(** C5, as the code has it. When fewer than k hosts of the range are
    bindable, the allocation fails with BindAddressNotFoundError; the
    instructions are those for the first rejected addresses, as many as the
    shortfall or all of them if there are fewer, with the netmask of the
    range; their number is the shortfall whenever the range has at least k
    hosts. *)
Theorem find_bind_addrs_shortfall (env : Env) (k : Z) (range : IP.IPv4Network)
    (w : World)
    (H : Z.of_nat (List.length (filter (bindable env) (IP.hosts range))) < k) :
  let found := filter (bindable env) (IP.hosts range) in
  let rejected := filter (unbindable env) (IP.hosts range) in
  let shortfall := k - Z.of_nat (List.length found) in
  exists instructions w',
    find_bind_addrs env k range w =
      (Raise (BindAddressNotFoundError instructions), w') /\
    instructions =
      addr_alias_setup_instructions env (firstn (Z.to_nat shortfall) rejected)
        (IP.netmask range) /\
    Z.of_nat (List.length instructions) =
      Z.min shortfall (Z.of_nat (List.length rejected)) /\
    (k <= Z.of_nat (List.length (IP.hosts range)) ->
     Z.of_nat (List.length instructions) = shortfall).
Proof.
  intros found rejected shortfall.
  destruct (find_bind_addrs_loop_spec env k (IP.hosts range) [] [] w)
    as (scanned & rest & Hh & Hrun & Hend);
    [cbn; pose proof (Nat2Z.is_nonneg (List.length found)); fold found in H; lia|].
  cbn [app] in Hrun, Hend.
  assert (Hle : (List.length (filter (bindable env) scanned) <=
                 List.length found)%nat).
  { unfold found. rewrite Hh, filter_app, length_app. lia. }
  destruct Hend as [[-> Hlt]|[Hlen _]]; [|fold found in H; lia].
  rewrite app_nil_r in Hh. subst scanned. fold found rejected in Hrun.
  unfold find_bind_addrs, bind at 1. rewrite Hrun. cbv beta iota.
  assert (Hb : (Z.of_nat (List.length found) <? k) = true)
    by (apply Z.ltb_lt; exact H).
  rewrite Hb.
  unfold raise, Py.slice_to. fold shortfall.
  assert (Hs : (shortfall <? 0) = false) by (apply Z.ltb_ge; unfold shortfall; lia).
  rewrite Hs. eexists. eexists. split; [reflexivity|]. split; [reflexivity|].
  unfold addr_alias_setup_instructions. rewrite length_map, length_firstn.
  pose proof (filter_length (bindable env) (IP.hosts range)) as Hp.
  fold found in Hp.
  change (filter (fun x => negb (bindable env x)) (IP.hosts range)) with rejected in Hp.
  split; [unfold shortfall in *; lia|].
  intros Hk. unfold shortfall in *. lia.
Qed.

Lemma find_bind_addrs_shortfall_witness :
  exists instructions w',
    find_bind_addrs Demo.env_unbindable 2 Demo.range30 Demo.world =
      (Raise (BindAddressNotFoundError instructions), w') /\
    Z.of_nat (List.length instructions) = 2.
Proof.
  destruct (find_bind_addrs_shortfall Demo.env_unbindable 2 Demo.range30
              Demo.world ltac:(vm_compute; reflexivity))
    as (instructions & w' & Hrun & _ & _ & Hlen).
  exists instructions, w'. split; [exact Hrun|].
  rewrite Hlen; [reflexivity|vm_compute; discriminate].
Defined.

(** The claim as stated, for every count and range: a /30 range has two
    hosts, so a request for three addresses of which none can be bound gets
    two instructions, not three. *)
Lemma find_bind_addrs_small_range :
  exists instructions w',
    find_bind_addrs Demo.env_unbindable 3 Demo.range30 Demo.world =
      (Raise (BindAddressNotFoundError instructions), w') /\
    filter (bindable Demo.env_unbindable) (IP.hosts Demo.range30) = [] /\
    Z.of_nat (List.length instructions) <> 3 - 0.
Proof.
  eexists. eexists. split; [vm_compute; reflexivity|].
  split; [reflexivity|vm_compute; discriminate].
Qed.

(** ** Launching the instances *)

Lemma Popen_spec (cmds : list string) (dir : FS.path) (w : World) :
  (exists e, Popen cmds dir w = (Raise e, w)) \/
  Popen cmds dir w =
    (Ok (next_pid w),
     mkWorld (fs w) (probes w) (processes w ++ [mkProcess (next_pid w) cmds dir])
       (bintray_calls w) (next_pid w + 1)).
Proof.
  unfold Popen. destruct cmds as [|exe rest]; [left; eauto|].
  destruct (FS.lookup dir (fs w)) as [[|]|];
    destruct (FS.lookup (parse_path exe) (fs w)) as [[|]|]; eauto.
Qed.

Lemma start_core_loop_spec (dir : FS.path) (addrs : list IP.IPv4Address) :
  forall todo idx pids w r w',
  start_core_loop dir addrs idx todo pids w = (r, w') ->
  exists ps,
    processes w' = processes w ++ ps /\
    (forall j p, nth_error ps j = Some p ->
       exists a, nth_error todo j = Some a /\
         core_commands dir addrs (idx + j) a = Ok (commands p)) /\
    (forall pids', r = Ok pids' ->
       pids' = pids ++ map pid ps /\ List.length ps = List.length todo).
Proof.
  induction todo as [|a rest IH]; intros idx pids w r w' H.
  - injection H as <- <-. exists []. rewrite !app_nil_r.
    split; [reflexivity|]. split; [intros [|j] p Hp; discriminate Hp|].
    intros pids' E. injection E as <-. auto.
  - cbn [start_core_loop] in H. unfold bind at 1, lift in H.
    destruct (core_commands dir addrs idx a) as [cmds|e] eqn:Ec.
    2:{ injection H as <- <-. exists []. rewrite app_nil_r.
        split; [reflexivity|]. split; [intros [|j] p Hp; discriminate Hp|].
        intros pids' E. discriminate E. }
    unfold bind at 1 in H.
    destruct (Popen_spec cmds dir w) as [[e Hp]|Hp]; rewrite Hp in H.
    { injection H as <- <-. exists []. rewrite app_nil_r.
      split; [reflexivity|]. split; [intros [|j] p Hj; discriminate Hj|].
      intros pids' E. discriminate E. }
    apply IH in H. destruct H as (ps & Hps & Hcmd & Hok).
    cbn [processes] in Hps. rewrite <- app_assoc in Hps.
    exists (mkProcess (next_pid w) cmds dir :: ps).
    split; [exact Hps|]. split.
    + intros [|j] p Hj.
      * injection Hj as <-. exists a. rewrite Nat.add_0_r. auto.
      * destruct (Hcmd j p Hj) as (a' & Ha' & Hc).
        exists a'. rewrite Nat.add_succ_r. auto.
    + intros pids' E. destruct (Hok pids' E) as [-> Hlen].
      rewrite <- app_assoc. cbn. auto.
Qed.

Lemma start_agent_loop_spec (dir : FS.path) :
  forall todo idx pids w r w',
  start_agent_loop dir idx todo pids w = (r, w') ->
  exists ps,
    processes w' = processes w ++ ps /\
    (forall j p, nth_error ps j = Some p ->
       exists a, nth_error todo j = Some a /\
         commands p = agent_commands dir a) /\
    (forall pids', r = Ok pids' ->
       pids' = pids ++ map pid ps /\ List.length ps = List.length todo).
Proof.
  induction todo as [|a rest IH]; intros idx pids w r w' H.
  - injection H as <- <-. exists []. rewrite !app_nil_r.
    split; [reflexivity|]. split; [intros [|j] p Hp; discriminate Hp|].
    intros pids' E. injection E as <-. auto.
  - cbn [start_agent_loop] in H. unfold bind at 1 in H.
    destruct (Popen_spec (agent_commands dir a) dir w) as [[e Hp]|Hp];
      rewrite Hp in H.
    { injection H as <- <-. exists []. rewrite app_nil_r.
      split; [reflexivity|]. split; [intros [|j] p Hj; discriminate Hj|].
      intros pids' E. discriminate E. }
    apply IH in H. destruct H as (ps & Hps & Hcmd & Hok).
    cbn [processes] in Hps. rewrite <- app_assoc in Hps.
    exists (mkProcess (next_pid w) (agent_commands dir a) dir :: ps).
    split; [exact Hps|]. split.
    + intros [|j] p Hj.
      * injection Hj as <-. exists a. auto.
      * exact (Hcmd j p Hj).
    + intros pids' E. destruct (Hok pids' E) as [-> Hlen].
      rewrite <- app_assoc. cbn. auto.
Qed.

Lemma path_str_slash (dir : FS.path) (tail flag : string) :
  (exists r, flag = String "-" r) ->
  String.eqb (path_str dir ++ String "/" tail)%string flag = false.
Proof.
  intros [r ->]. destruct dir as [|c d]; reflexivity.
Qed.

Lemma Ok_inj {A} (a b : A) : Ok a = Ok b -> a = b.
Proof. intros H. now injection H. Qed.

Lemma flag_value_skip (flag first : string) (rest : list string) :
  String.eqb first flag = false ->
  flag_value flag (first :: rest) = flag_value flag rest.
Proof. intros E. cbn [flag_value]. now rewrite E. Qed.

Lemma flag_value_here (flag v : string) (rest : list string) :
  flag_value flag (flag :: v :: rest) = Some v.
Proof. cbn [flag_value hd_error]. now rewrite String.eqb_refl. Qed.

Lemma define_not_flag (name v r : string) :
  String.eqb (String "-" (String "D" name) ++ v)%string (String "-" (String "-" r)) = false.
Proof. reflexivity. Qed.

Lemma core_commands_seed (dir : FS.path) (addrs : list IP.IPv4Address)
    (idx : nat) (a : IP.IPv4Address) (cmds : list string) :
  core_commands dir addrs idx a = Ok cmds ->
  nth_error cmds 1 = Some ("-Dconductr.ip=" ++ IP.str a)%string /\
  flag_value "--seed" cmds =
    match idx with
    | O => None
    | S _ => option_map (fun first => addr_port first CONDUCTR_AKKA_REMOTING_PORT)
               (hd_error addrs)
    end /\
  (idx <> O -> hd_error addrs <> None).
Proof.
  unfold core_commands. destruct idx as [|idx].
  - change (0 <? 0)%nat with false. cbv iota.
    intros E. apply Ok_inj in E. subst cmds.
    split; [reflexivity|]. split; [|congruence].
    rewrite flag_value_skip by (apply path_str_slash; eauto).
    rewrite flag_value_skip by exact (define_not_flag "conductr.ip=" _ "seed"). reflexivity.
  - change (0 <? S idx)%nat with true. cbv iota.
    unfold Py.index. destruct addrs as [|first rest]; cbn [nth_error rbind];
      [discriminate|].
    intros E. apply Ok_inj in E. subst cmds. cbn [app].
    split; [reflexivity|]. split; [|cbn [hd_error]; congruence].
    rewrite flag_value_skip by (apply path_str_slash; eauto).
    rewrite flag_value_skip by exact (define_not_flag "conductr.ip=" _ "seed").
    rewrite flag_value_here. reflexivity.
Qed.

Lemma agent_commands_core_node (dir : FS.path) (a : IP.IPv4Address) :
  nth_error (agent_commands dir a) 1 = Some ("-Dconductr.agent.ip=" ++ IP.str a)%string /\
  flag_value "--core-node" (agent_commands dir a) =
    Some (addr_port a CONDUCTR_AKKA_REMOTING_PORT).
Proof.
  unfold agent_commands. split; [reflexivity|].
  rewrite flag_value_skip by (apply path_str_slash; eauto).
  rewrite flag_value_skip by exact (define_not_flag "conductr.agent.ip=" _ "core-node").
  rewrite flag_value_here. reflexivity.
Qed.

(** C1. For every list of bind addresses: the processes that launching the
    core instances spawns are, in order, bound to the addresses of the list;
    the one at index 0 has no seed flag, each one at an index i > 0 has the
    seed flag (addrs[0], 9004). The processes that launching the agent
    instances spawns each have, index 0 included, the core-node flag (its
    own bind address, 9004). A launch that returns has spawned one process
    for each address and returns their pids. *)
Theorem launch_flags (core_dir agent_dir : FS.path)
    (bind_addrs : list IP.IPv4Address) (w wc wa : World)
    (rc ra : result (list Z))
    (Hc : start_core_instances core_dir bind_addrs w = (rc, wc))
    (Ha : start_agent_instances agent_dir bind_addrs w = (ra, wa)) :
  exists pc pa,
    processes wc = processes w ++ pc /\
    processes wa = processes w ++ pa /\
    (forall pids, rc = Ok pids ->
       pids = map pid pc /\ List.length pc = List.length bind_addrs) /\
    (forall pids, ra = Ok pids ->
       pids = map pid pa /\ List.length pa = List.length bind_addrs) /\
    (forall i p, nth_error pc i = Some p ->
       exists a,
         nth_error bind_addrs i = Some a /\
         nth_error (commands p) 1 = Some ("-Dconductr.ip=" ++ IP.str a)%string /\
         flag_value "--seed" (commands p) =
           match i with
           | O => None
           | S _ => option_map
                      (fun first => addr_port first CONDUCTR_AKKA_REMOTING_PORT)
                      (hd_error bind_addrs)
           end /\
         (i <> O -> hd_error bind_addrs <> None)) /\
    (forall i p, nth_error pa i = Some p ->
       exists a,
         nth_error bind_addrs i = Some a /\
         nth_error (commands p) 1 = Some ("-Dconductr.agent.ip=" ++ IP.str a)%string /\
         flag_value "--core-node" (commands p) =
           Some (addr_port a CONDUCTR_AKKA_REMOTING_PORT)).
Proof.
  apply start_core_loop_spec in Hc. destruct Hc as (pc & Hpc & Hcmd & Hokc).
  apply start_agent_loop_spec in Ha. destruct Ha as (pa & Hpa & Hacmd & Hoka).
  exists pc, pa.
  split; [exact Hpc|]. split; [exact Hpa|].
  split; [intros pids E; exact (Hokc pids E)|].
  split; [intros pids E; exact (Hoka pids E)|].
  split.
  - intros i p Hp. destruct (Hcmd i p Hp) as (a & Ha & Hc).
    exists a. split; [exact Ha|]. exact (core_commands_seed _ _ _ _ _ Hc).
  - intros i p Hp. destruct (Hacmd i p Hp) as (a & Ha & E).
    exists a. split; [exact Ha|]. rewrite E. apply agent_commands_core_node.
Qed.

Lemma launch_flags_witness :
  exists pc pa,
    map commands pc =
      [ ["/home/images/core/bin/conductr"; "-Dconductr.ip=192.168.128.1"];
        ["/home/images/core/bin/conductr"; "-Dconductr.ip=192.168.128.2";
         "--seed"; "192.168.128.1:9004"] ]%string /\
    map commands pa =
      [ ["/home/images/agent/bin/conductr-agent";
         "-Dconductr.agent.ip=192.168.128.1"; "--core-node"; "192.168.128.1:9004"];
        ["/home/images/agent/bin/conductr-agent";
         "-Dconductr.agent.ip=192.168.128.2"; "--core-node"; "192.168.128.2:9004"]
      ]%string /\
    (forall i p, nth_error pa i = Some p ->
       exists a,
         nth_error Demo.two_addrs i = Some a /\
         flag_value "--core-node" (commands p) =
           Some (addr_port a CONDUCTR_AKKA_REMOTING_PORT)).
Proof.
  destruct (launch_flags (Demo.images ++ ["core"%string])
              (Demo.images ++ ["agent"%string]) Demo.two_addrs
              Demo.world_extracted _ _ _ _ eq_refl eq_refl)
    as (pc & pa & Hpc & Hpa & _ & _ & _ & Hflag).
  exists pc, pa.
  vm_compute in Hpc. apply (f_equal (map commands)) in Hpc.
  vm_compute in Hpa. apply (f_equal (map commands)) in Hpa.
  split; [symmetry; exact Hpc|]. split; [symmetry; exact Hpa|].
  intros i p Hp. destruct (Hflag i p Hp) as (a & Ha & _ & Hf). eauto.
Defined.

(** ** The artifact kind of a failed download *)

(** C7. The claim: an HTTP error raises a not-found error that carries the
    kind whose download failed. The handler always passes the type of the
    core descriptor: with the core archive in the cache and the agent
    archive answered by 404, the only download is the agent's and the error
    names the core. A connection failure is reported as unreachable. *)
Theorem not_found_names_core :
  (exists w',
     obtain_sandbox_image Demo.env_not_found Demo.images "2.1.0"
       Demo.world_core_only =
       (Raise (SandboxImageNotFoundError "core" "2.1.0"), w') /\
     bintray_calls w' =
       [LoadCredentials; Download "ConductR-Agent-Universal" "2.1.0"]) /\
  (exists w',
     obtain_sandbox_image Demo.env Demo.images "2.1.0" Demo.world_core_only =
       (Raise (BintrayUnreachableError "Bintray is unreachable."), w')).
Proof.
  split; eexists; [split|]; vm_compute; reflexivity.
Qed.

(** ** A run without core instances *)

Lemma slice_to_zero {A} (xs : list A) : Py.slice_to xs 0 = [].
Proof. reflexivity. Qed.

Lemma SandboxRunResult_init_empty (cp ap : list Z) (aa : list IP.IPv4Address)
    (n : Z) : SandboxRunResult_init cp [] ap aa n = Raise IndexError.
Proof. reflexivity. Qed.

(** C10. Constructing a SandboxRunResult needs a first core address: with
    no core address it raises IndexError. The parser accepts "0", and every
    run whose parsed core count is 0 ends in an exception: when all the
    steps before it succeed, it is the IndexError of assembling the result,
    raised after the agent instances were started. *)
Theorem run_without_core (env : Env) (args : Args) (features : list string)
    (nr_of_agent_instances : Z) (w : World)
    (Hcount : instance_count (image_version args) (nr_of_containers args) =
              Ok (0, nr_of_agent_instances)) :
  (forall v, instance_count v "0" = Ok (0, 0)) /\
  (forall cp ap aa n, SandboxRunResult_init cp [] ap aa n = Raise IndexError) /\
  (exists e, fst (run env args features w) = Raise e) /\
  (forall w1 bind_addrs w2 core_dir agent_dir w3 cp w4 ap w5,
     validate_jvm_support (java_version env) = Ok tt ->
     sandbox_stop env args w = (Ok tt, w1) ->
     find_bind_addrs env (Z.max 0 nr_of_agent_instances) (addr_range args) w1 =
       (Ok bind_addrs, w2) ->
     obtain_sandbox_image env (image_dir args) (image_version args) w2 =
       (Ok (core_dir, agent_dir), w3) ->
     start_core_instances core_dir (Py.slice_to bind_addrs 0) w3 = (Ok cp, w4) ->
     start_agent_instances agent_dir
       (Py.slice_to bind_addrs nr_of_agent_instances) w4 = (Ok ap, w5) ->
     run env args features w = (Raise IndexError, w5)).
Proof.
  split; [intros v; reflexivity|].
  split; [exact SandboxRunResult_init_empty|].
  split.
  - unfold run, bind, lift. rewrite Hcount.
    destruct (validate_jvm_support (java_version env));
      [|eexists; reflexivity].
    destruct (sandbox_stop env args w) as [[[]|] w1]; [|eexists; reflexivity].
    destruct (find_bind_addrs _ _ _ w1) as [[bind_addrs|] w2];
      [|eexists; reflexivity].
    destruct (obtain_sandbox_image _ _ _ w2) as [[[cd ad]|] w3];
      [|eexists; reflexivity].
    destruct (start_core_instances _ _ w3) as [[cp|] w4];
      [|eexists; reflexivity].
    destruct (start_agent_instances _ _ w4) as [[ap|] w5];
      eexists; reflexivity.
  - intros w1 bind_addrs w2 cd ad w3 cp w4 ap w5 Hj Hs Hf Ho Hc Ha.
    unfold run, bind, lift.
    rewrite Hcount, Hj, Hs, Hf, Ho, Hc, Ha, slice_to_zero. reflexivity.
Qed.

Lemma run_without_core_witness :
  exists e, fst (run Demo.env (Demo.args "0") [] Demo.world) = Raise e.
Proof.
  exact (proj1 (proj2 (proj2
           (run_without_core Demo.env (Demo.args "0") [] 0 Demo.world eq_refl)))).
Defined.

(** ** The file system *)

Section Entries.

Lemma get_set_same (c : string) (n : FS.node) (es : FS.entries) :
  FS.get c (FS.set c n es) = Some n.
Proof.
  induction es as [|[k m] r IH]; cbn [FS.set FS.get].
  - now rewrite String.eqb_refl.
  - destruct (String.eqb k c) eqn:E; cbn [FS.get]; now rewrite E.
Qed.

Lemma get_set_other (a c : string) (n : FS.node) (es : FS.entries) :
  a <> c -> FS.get a (FS.set c n es) = FS.get a es.
Proof.
  intros Hne. induction es as [|[k m] r IH]; cbn [FS.set FS.get].
  - destruct (String.eqb_spec c a); [congruence|reflexivity].
  - destruct (String.eqb_spec k c) as [->|Hk]; cbn [FS.get].
    + destruct (String.eqb_spec c a); [congruence|reflexivity].
    + now rewrite IH.
Qed.

Lemma get_del_same (c : string) (es : FS.entries) : FS.get c (FS.del c es) = None.
Proof.
  unfold FS.del. induction es as [|[k m] r IH]; cbn [filter FS.get fst];
    [reflexivity|].
  destruct (String.eqb k c) eqn:E; cbn [negb FS.get]; [exact IH|].
  now rewrite E.
Qed.

Lemma get_del_other (a c : string) (es : FS.entries) :
  a <> c -> FS.get a (FS.del c es) = FS.get a es.
Proof.
  intros Hne. unfold FS.del.
  induction es as [|[k m] r IH]; cbn [filter FS.get fst]; [reflexivity|].
  destruct (String.eqb_spec k c) as [->|Hk]; cbn [negb FS.get].
  - destruct (String.eqb_spec c a); [congruence|exact IH].
  - now rewrite IH.
Qed.

Lemma set_set (c : string) (n1 n2 : FS.node) (es : FS.entries) :
  FS.set c n2 (FS.set c n1 es) = FS.set c n2 es.
Proof.
  induction es as [|[k m] r IH]; cbn [FS.set].
  - now rewrite String.eqb_refl.
  - destruct (String.eqb k c) eqn:E; cbn [FS.set]; rewrite E; congruence.
Qed.

Lemma set_same (c : string) (n : FS.node) (es : FS.entries) :
  FS.get c es = Some n -> FS.set c n es = es.
Proof.
  induction es as [|[k m] r IH]; cbn [FS.set FS.get]; [discriminate|].
  destruct (String.eqb k c); intros E; [congruence|]. now rewrite IH.
Qed.


Lemma del_absent (c : string) (es : FS.entries) :
  FS.get c es = None -> FS.del c es = es.
Proof.
  unfold FS.del. induction es as [|[k m] r IH]; cbn [FS.get filter fst];
    [reflexivity|].
  destruct (String.eqb k c); [discriminate|]. intros E. cbn [negb].
  now rewrite IH.
Qed.


End Entries.

Section Paths.

Lemma lookup_app (d q : FS.path) :
  forall root,
  FS.lookup (d ++ q) root =
  match FS.lookup d root with
  | Some n => FS.lookup q n
  | None => None
  end.
Proof.
  induction d as [|c d IH]; intros root; cbn [app FS.lookup]; [reflexivity|].
  destruct root as [|es]; [reflexivity|].
  destruct (FS.get c es); [apply IH|reflexivity].
Qed.

Lemma at_path_app (d q : FS.path) (f : FS.node -> result FS.node) :
  forall root, FS.at_path (d ++ q) f root = FS.at_path d (FS.at_path q f) root.
Proof.
  induction d as [|c d IH]; intros root; cbn [app FS.at_path]; [reflexivity|].
  destruct root as [|es]; [reflexivity|].
  destruct (FS.get c es); [now rewrite IH|reflexivity].
Qed.

(** [at_path] on a node that is there: run [f] on it, graft the outcome. *)
Lemma at_path_spec (d : FS.path) (f : FS.node -> result FS.node) :
  forall root n,
  FS.lookup d root = Some n ->
  FS.at_path d f root = rbind (f n) (fun n' => Ok (graft d n' root)).
Proof.
  induction d as [|c d IH]; intros root n H; cbn [FS.lookup] in H.
  - injection H as ->. cbn [FS.at_path graft]. now destruct (f n).
  - destruct root as [|es]; [discriminate|].
    cbn [FS.at_path graft]. destruct (FS.get c es) as [n1|]; [|discriminate].
    rewrite (IH _ _ H). now destruct (f n).
Qed.

Lemma lookup_graft (d : FS.path) (x : FS.node) :
  forall root n, FS.lookup d root = Some n -> FS.lookup d (graft d x root) = Some x.
Proof.
  induction d as [|c d IH]; intros root n H; cbn [FS.lookup graft] in *;
    [reflexivity|].
  destruct root as [|es]; [discriminate|].
  destruct (FS.get c es) as [n1|] eqn:E; [|discriminate].
  cbn [FS.lookup]. rewrite get_set_same. eauto.
Qed.

Lemma graft_graft (d : FS.path) (x y : FS.node) :
  forall root, graft d y (graft d x root) = graft d y root.
Proof.
  induction d as [|c d IH]; intros root; cbn [graft]; [reflexivity|].
  destruct root as [|es]; [reflexivity|].
  destruct (FS.get c es) as [n1|] eqn:E; cbn [graft]; [|now rewrite E].
  now rewrite get_set_same, set_set, IH.
Qed.

Lemma graft_same (d : FS.path) :
  forall root n, FS.lookup d root = Some n -> graft d n root = root.
Proof.
  induction d as [|c d IH]; intros root n H; cbn [FS.lookup graft] in *;
    [congruence|].
  destruct root as [|es]; [discriminate|].
  destruct (FS.get c es) as [n1|] eqn:E; [|discriminate].
  rewrite (IH _ _ H). now rewrite set_same.
Qed.


Lemma split_last_snoc (p : FS.path) (c : string) :
  FS.split_last (p ++ [c]) = Some (p, c).
Proof.
  induction p as [|a p IH]; cbn [app FS.split_last]; [reflexivity|].
  now rewrite IH.
Qed.

Lemma split_last_inv (p parent : FS.path) (name : string) :
  FS.split_last p = Some (parent, name) -> p = parent ++ [name].
Proof.
  revert parent. induction p as [|a p IH]; intros parent; cbn [FS.split_last];
    [discriminate|].
  destruct (FS.split_last p) as [[q l]|] eqn:E.
  - intros H. injection H as <- <-. cbn [app]. f_equal. now apply IH.
  - destruct p; [|cbn [FS.split_last] in E; destruct (FS.split_last p) as [[]|];
                   discriminate].
    intros H. now injection H as <- <-.
Qed.

Lemma split_last_app (d p : FS.path) :
  p <> [] ->
  FS.split_last (d ++ p) =
  match FS.split_last p with
  | Some (parent, name) => Some (d ++ parent, name)
  | None => None
  end.
Proof.
  intros Hp. destruct (FS.split_last p) as [[parent name]|] eqn:E.
  - apply split_last_inv in E. subst p.
    now rewrite app_assoc, split_last_snoc.
  - destruct p; [congruence|]. cbn [FS.split_last] in E.
    destruct (FS.split_last p) as [[]|]; discriminate.
Qed.

End Paths.

(** *** Operations below a directory act on its subtree only *)

Section Locality.

Variable d : FS.path.

Lemma local_at_path (q : FS.path) (f : FS.node -> result FS.node) :
  local_at d (FS.at_path (d ++ q) f) (FS.at_path q f).
Proof.
  intros root n H. rewrite at_path_app. now apply at_path_spec.
Qed.

Lemma local_on_child (p : FS.path)
    (g : string -> FS.entries -> result FS.entries) :
  p <> [] -> local_at d (FS.on_child (d ++ p) g) (FS.on_child p g).
Proof.
  intros Hp root n H. unfold FS.on_child. rewrite (split_last_app d p Hp).
  destruct (FS.split_last p) as [[parent name]|] eqn:E.
  - now apply local_at_path.
  - destruct p; [congruence|]. cbn [FS.split_last] in E.
    destruct (FS.split_last p) as [[]|]; discriminate.
Qed.

Lemma local_ensure (p : FS.path) (found : FS.node -> result FS.node)
    (missing : FS.path -> FS.node) :
  local_at d (FS.ensure (d ++ p) found missing) (FS.ensure p found missing).
Proof.
  unfold local_at. induction d as [|c d' IH]; intros root n H;
    cbn [FS.lookup app] in *.
  - injection H as ->. cbn [graft]. now destruct (FS.ensure p found missing n).
  - destruct root as [|es]; [discriminate|].
    cbn [FS.ensure graft]. destruct (FS.get c es) as [n1|]; [|discriminate].
    rewrite (IH _ _ H). now destruct (FS.ensure p found missing n).
Qed.



Lemma lookup_below (q : FS.path) (root n : FS.node) :
  FS.lookup d root = Some n -> FS.lookup (d ++ q) root = FS.lookup q n.
Proof. intros H. now rewrite lookup_app, H. Qed.

Lemma local_const_raise (e : exn) : local_at d (fun _ => Raise e) (fun _ => Raise e).
Proof. intros root n H. reflexivity. Qed.



(** From operations to programs. *)







End Locality.

(** ** [extract_binary] *)


Section ExtractBinary.

(** The layout [obtain_sandbox_image] works on: a directory [parent] that
    holds the archive [fname] and, under the name [dname], the extraction
    directory of [info], absent or a directory. *)
Variable parent : FS.path.
Variables dname fname : string.
Variable info : conductr_info.
Variable ms : list FS.member.

Hypothesis Hinfo : extraction_dir info = parent ++ [dname].
Hypothesis Hknown : FS.known_archive_name fname = true.
Hypothesis Hnames : fname <> dname.

Lemma rmtree_child (pes : FS.entries) (old : FS.entries) (root : FS.node) :
  FS.lookup parent root = Some (FS.Dir pes) ->
  FS.get dname pes = Some (FS.Dir old) ->
  FS.rmtree (parent ++ [dname]) root =
  Ok (graft parent (FS.Dir (FS.del dname pes)) root).
Proof.
  intros Hp Hd. unfold FS.rmtree.
  rewrite (local_on_child parent [dname] _ ltac:(discriminate) root _ Hp).
  unfold FS.on_child. cbn [FS.split_last FS.at_path rbind]. now rewrite Hd.
Qed.

Lemma makedirs_child (pes : FS.entries) (root : FS.node) :
  FS.lookup parent root = Some (FS.Dir pes) ->
  FS.get dname pes = None ->
  FS.makedirs (parent ++ [dname]) root =
  Ok (graft parent (FS.Dir (FS.set dname (FS.Dir []) pes)) root).
Proof.
  intros Hp Hd. unfold FS.makedirs.
  rewrite (local_ensure parent [dname] _ _ root _ Hp).
  cbn [FS.ensure rbind]. now rewrite Hd.
Qed.


End ExtractBinary.

(** *** What [populate] leaves *)








(** *** Extraction flattens the archive's own folder *)

Lemma lookup_sibling (parent : FS.path) (dname name : string) (rest : FS.path)
    (pes : FS.entries) (tree root : FS.node) :
  FS.lookup parent root = Some (FS.Dir pes) ->
  name <> dname ->
  FS.lookup (parent ++ name :: rest)
    (graft parent (FS.Dir (FS.set dname tree (FS.del dname pes))) root) =
  FS.lookup (parent ++ name :: rest) root.
Proof.
  intros Hp Hn.
  rewrite (lookup_below parent _ _ _ (lookup_graft _ _ _ _ Hp)).
  rewrite (lookup_below parent _ _ _ Hp). cbn [FS.lookup].
  now rewrite get_set_other, get_del_other.
Qed.




(** ** [obtain_sandbox_image] on a cache that holds both archives *)

Local Open Scope string_scope.
Local Open Scope list_scope.











Section CachedImage.

Variable env : Env.
Variable dir : FS.path.
Variable v : string.

Let core_info : conductr_info := fst (resolve_conductr_info env dir).
Let agent_info : conductr_info := snd (resolve_conductr_info env dir).



(** An extraction directory that is a regular file stops the extraction. *)
Lemma extract_binary_blocked (path : FS.path) (info : conductr_info)
    (dname : string) (pes : FS.entries) (c : FS.content) (root : FS.node) :
  extraction_dir info = dir ++ [dname] ->
  FS.lookup dir root = Some (FS.Dir pes) ->
  FS.get dname pes = Some (FS.File c) ->
  extract_binary path info root = (Raise NotADirectoryError, root).
Proof.
  intros Hinfo Hp Hd. unfold extract_binary. rewrite Hinfo. cbv zeta.
  unfold FS.bind at 1, FS.query at 1, FS.exists_.
  rewrite (lookup_below dir [dname] _ _ Hp). cbn [FS.lookup]. rewrite Hd.
  unfold FS.bind at 1, FS.atomic at 1, FS.rmtree.
  rewrite (local_on_child dir [dname] _ ltac:(discriminate) root _ Hp).
  unfold FS.on_child. cbn [FS.split_last FS.at_path rbind]. now rewrite Hd.
Qed.


End CachedImage.

Section Idempotence.

Variable env : Env.
Variable dir : FS.path.
Variable v : string.

Let core_info : conductr_info := fst (resolve_conductr_info env dir).
Let agent_info : conductr_info := snd (resolve_conductr_info env dir).



Lemma with_fs_twice (root1 root2 : FS.node) (w : World) :
  with_fs root2 (with_fs root1 w) = with_fs root2 w.
Proof. reflexivity. Qed.



End Idempotence.


(** * Further properties of the module *)

(** ** [instance_count] beyond the two documented forms *)

Local Open Scope string_scope.
Local Open Scope Z_scope.



Lemma split_nonempty (sep : ascii) (s : string) : Py.split sep s <> [].
Proof.
  destruct s as [|c r]; cbn [Py.split]; [discriminate|].
  destruct (Ascii.eqb c sep); [discriminate|].
  destruct (Py.split sep r); discriminate.
Qed.

Lemma index_first_split (sep : ascii) (s : string) :
  exists p, Py.index (Py.split sep s) 0 = Ok p.
Proof.
  unfold Py.index. pose proof (split_nonempty sep s) as H.
  destruct (Py.split sep s) as [|p l]; [congruence|]. now exists p.
Qed.

Lemma index_last_split (sep : ascii) (s : string) :
  exists p, Py.index_last (Py.split sep s) = Ok p.
Proof.
  unfold Py.index_last. pose proof (split_nonempty sep s) as H.
  destruct (rev (Py.split sep s)) as [|p l] eqn:E; [|now exists p].
  apply (f_equal (@rev string)) in E. rewrite rev_involutive in E.
  cbn in E. congruence.
Qed.

(** The exceptions of [instance_count]: an InstanceCountError that carries
    the image version and the expression given, raised when the expression
    is no integer and holds no <digits>:<digits>; or the ValueError of
    [int] on a part around the colons. It raises nothing else. *)
Theorem instance_count_raises (image_version expression : string) (e : exn)
    (H : instance_count image_version expression = Raise e) :
  Py.int expression = Raise ValueError /\
  ((e = InstanceCountError image_version expression instance_count_message /\
    Re.search NR_OF_INSTANCE_EXPRESSION expression = false) \/
   (e = ValueError /\
    Re.search NR_OF_INSTANCE_EXPRESSION expression = true)).
Proof.
  unfold instance_count in H.
  destruct (Py.int expression) as [n|e0] eqn:Ei; [discriminate H|].
  pose proof (int_raises _ _ Ei) as ->. split; [reflexivity|].
  destruct (Re.search NR_OF_INSTANCE_EXPRESSION expression).
  - right. split; [|reflexivity].
    destruct (index_first_split ":" expression) as [p0 E0].
    destruct (index_last_split ":" expression) as [p1 E1].
    rewrite E0 in H. cbn [rbind] in H.
    destruct (Py.int p0) as [a|e1] eqn:Ea; cbn [rbind] in H.
    + rewrite E1 in H. cbn [rbind] in H.
      destruct (Py.int p1) as [b|e2] eqn:Eb; cbn [rbind] in H;
        [discriminate H|].
      apply int_raises in Eb. congruence.
    + apply int_raises in Ea. congruence.
  - left. split; [congruence|reflexivity].
Qed.

Lemma instance_count_raises_witness :
  Py.int "abc" = Raise ValueError /\
  ((InstanceCountError "2.1.0" "abc" instance_count_message =
    InstanceCountError "2.1.0" "abc" instance_count_message /\
    Re.search NR_OF_INSTANCE_EXPRESSION "abc" = false) \/
   (InstanceCountError "2.1.0" "abc" instance_count_message = ValueError /\
    Re.search NR_OF_INSTANCE_EXPRESSION "abc" = true)).
Proof. apply (instance_count_raises "2.1.0" "abc"). reflexivity. Defined.




(** ** [find_bind_addrs]: which addresses, which probes *)

Local Open Scope list_scope.
Local Open Scope Z_scope.

Lemma firstn_exact {A} (l1 l2 : list A) :
  firstn (List.length l1) (l1 ++ l2) = l1.
Proof.
  rewrite firstn_app, Nat.sub_diag, firstn_all. cbn [firstn].
  apply app_nil_r.
Qed.

(** With at least k >= 1 bindable hosts in the range, the allocation
    succeeds and returns the first k bindable hosts of the range. *)
Theorem find_bind_addrs_first_bindable (env : Env) (k : Z)
    (range : IP.IPv4Network) (w : World)
    (Hk : 1 <= k)
    (H : k <= Z.of_nat (List.length (filter (bindable env) (IP.hosts range)))) :
  exists w',
    find_bind_addrs env k range w =
    (Ok (firstn (Z.to_nat k) (filter (bindable env) (IP.hosts range))), w').
Proof.
  destruct (find_bind_addrs_loop_spec env k (IP.hosts range) [] [] w)
    as (scanned & rest & Hh & Hrun & Hend); [cbn; lia|].
  cbn [app] in Hrun, Hend.
  unfold find_bind_addrs, bind at 1. rewrite Hrun. cbv beta iota.
  destruct Hend as [[-> Hlt]|[Hlen _]].
  - rewrite app_nil_r in Hh. subst scanned. lia.
  - assert (Hge : (Z.of_nat (List.length (filter (bindable env) scanned)) <? k)
                  = false) by (apply Z.ltb_ge; lia).
    rewrite Hge. unfold ret. eexists. f_equal. f_equal.
    rewrite Hh, filter_app. rewrite <- Hlen, Nat2Z.id.
    symmetry. apply firstn_exact.
Qed.

Lemma find_bind_addrs_first_bindable_witness :
  exists w',
    find_bind_addrs Demo.env 2 Demo.range30 Demo.world =
    (Ok (firstn 2 (filter (bindable Demo.env) (IP.hosts Demo.range30))), w').
Proof.
  apply (find_bind_addrs_first_bindable Demo.env 2 Demo.range30 Demo.world);
    [lia|vm_compute; discriminate].
Defined.

Lemma find_bind_addrs_nonpositive_eq (env : Env) (k : Z)
    (range : IP.IPv4Network) (w : World) :
  k <= 0 ->
  find_bind_addrs env k range w =
  match IP.hosts range with
  | [] => (Ok [], w)
  | first :: _ =>
      (Ok (if bindable env first then [first] else []),
       mkWorld (fs w) (probes w ++ [probe_of first]) (processes w)
         (bintray_calls w) (next_pid w))
  end.
Proof.
  intros Hk. unfold find_bind_addrs, bind at 1.
  destruct (IP.hosts range) as [|first rest]; cbn [find_bind_addrs_loop].
  - unfold ret. cbn [List.length].
    assert (E : (Z.of_nat 0 <? k) = false) by (apply Z.ltb_ge; lia).
    now rewrite E.
  - unfold bind at 1, host_can_bind, bindable, probe_of.
    destruct (can_bind env first BIND_TEST_PORT); cbn [app List.length].
    + assert (E1 : (k <=? Z.of_nat 1) = true) by (apply Z.leb_le; lia).
      assert (E2 : (Z.of_nat 1 <? k) = false) by (apply Z.ltb_ge; lia).
      rewrite E1. unfold ret. cbv beta iota. cbn [List.length].
      now rewrite E2.
    + assert (E1 : (k <=? Z.of_nat 0) = true) by (apply Z.leb_le; lia).
      assert (E2 : (Z.of_nat 0 <? k) = false) by (apply Z.ltb_ge; lia).
      rewrite E1. unfold ret. cbv beta iota. cbn [List.length].
      now rewrite E2.
Qed.

(** A count of zero or less never fails: the first host of the range is
    probed, no other, and it is returned if it can be bound (so one address
    may be returned where none was asked for). *)
Theorem find_bind_addrs_nonpositive (env : Env) (k : Z)
    (range : IP.IPv4Network) (w : World) (Hk : k <= 0) :
  find_bind_addrs env k range w =
  match IP.hosts range with
  | [] => (Ok [], w)
  | first :: _ =>
      (Ok (if bindable env first then [first] else []),
       mkWorld (fs w) (probes w ++ [probe_of first]) (processes w)
         (bintray_calls w) (next_pid w))
  end.
Proof. now apply find_bind_addrs_nonpositive_eq. Qed.

Lemma find_bind_addrs_nonpositive_witness :
  fst (find_bind_addrs Demo.env_unbindable (-1) Demo.range30 Demo.world) = Ok [].
Proof.
  rewrite (find_bind_addrs_nonpositive Demo.env_unbindable (-1) Demo.range30
             Demo.world ltac:(lia)).
  reflexivity.
Defined.

(** Whatever its outcome, the allocation changes nothing of the world but
    the log of probes, to which it adds one probe on the test port for each
    host of a prefix of the range, in order. *)
Theorem find_bind_addrs_only_probes (env : Env) (k : Z)
    (range : IP.IPv4Network) (w : World) :
  let w' := snd (find_bind_addrs env k range w) in
  fs w' = fs w /\ processes w' = processes w /\
  bintray_calls w' = bintray_calls w /\ next_pid w' = next_pid w /\
  exists scanned rest,
    IP.hosts range = scanned ++ rest /\
    probes w' = probes w ++ map probe_of scanned.
Proof.
  intros w'. subst w'.
  destruct (Z.le_gt_cases k 0) as [Hk|Hk].
  - rewrite (find_bind_addrs_nonpositive_eq env k range w Hk).
    destruct (IP.hosts range) as [|first rest]; cbn [snd].
    + do 4 (split; [reflexivity|]). exists [], []. split; [reflexivity|].
      cbn [map]. now rewrite app_nil_r.
    + do 4 (split; [reflexivity|]). exists [first], rest. split; reflexivity.
  - destruct (find_bind_addrs_loop_spec env k (IP.hosts range) [] [] w)
      as (scanned & rest & Hh & Hrun & _); [cbn; lia|].
    assert (E : exists r,
              find_bind_addrs env k range w =
              (r, mkWorld (fs w) (probes w ++ map probe_of scanned)
                    (processes w) (bintray_calls w) (next_pid w))).
    { unfold find_bind_addrs, bind at 1. rewrite Hrun. cbv beta iota.
      match goal with
      | |- context [if ?c then _ else _] => destruct c
      end; eexists; reflexivity. }
    destruct E as [r E]. rewrite E. cbn [snd fs processes bintray_calls
                                         next_pid probes].
    do 4 (split; [reflexivity|]). exists scanned, rest. split; auto.
Qed.

(** ** [extract_binary] on any archive, and on what is no archive *)

Local Open Scope string_scope.
Local Open Scope list_scope.



(** Up to [shutil.unpack_archive]: the extraction directory has been
    replaced by an empty one, and a failure to unpack is the failure of the
    extraction. *)
Lemma extract_binary_unpack_fails (parent : FS.path) (dname : string)
    (info : conductr_info) (path : FS.path) (pes : FS.entries)
    (root root' : FS.node) (e : exn) :
  extraction_dir info = parent ++ [dname] ->
  FS.lookup parent root = Some (FS.Dir pes) ->
  (FS.get dname pes = None \/ exists old, FS.get dname pes = Some (FS.Dir old)) ->
  FS.unpack_archive path (parent ++ [dname])
    (graft parent (FS.Dir (FS.set dname (FS.Dir []) (FS.del dname pes))) root) =
    (Raise e, root') ->
  extract_binary path info root = (Raise e, root').
Proof.
  intros Hinfo Hp Hd Hun. unfold extract_binary. rewrite Hinfo. cbv zeta.
  unfold FS.bind at 1, FS.query at 1, FS.exists_.
  rewrite (lookup_below parent [dname] _ _ Hp). cbn [FS.lookup].
  set (pesA := FS.del dname pes).
  assert (HdA : FS.get dname pesA = None) by apply get_del_same.
  assert (Hrm : forall k : unit -> FS.F FS.path,
            FS.bind (match FS.get dname pes with
                     | Some _ => FS.atomic (FS.rmtree (parent ++ [dname]))
                     | None => FS.ret tt
                     end) k root =
            k tt (graft parent (FS.Dir pesA) root)).
  { intros k. unfold FS.bind. destruct Hd as [Hd|[old Hd]]; rewrite Hd.
    - unfold FS.ret. unfold pesA.
      now rewrite (del_absent _ _ Hd), (graft_same _ _ _ Hp).
    - unfold FS.atomic.
      now rewrite (rmtree_child parent dname pes old root Hp Hd). }
  destruct (FS.get dname pes) as [n0|] eqn:Eg; cbv iota; rewrite Hrm; clear Hrm.
  all: assert (HpA : FS.lookup parent (graft parent (FS.Dir pesA) root) =
                     Some (FS.Dir pesA)) by (eapply lookup_graft; exact Hp).
  all: unfold FS.bind at 1, FS.atomic at 1.
  all: rewrite (makedirs_child parent dname pesA _ HpA HdA), graft_graft.
  all: unfold FS.bind at 1; fold pesA in Hun; now rewrite Hun.
Qed.

(** A cache file that is no archive: the extraction raises ReadError, after
    it has replaced the extraction directory by an empty one. *)
Theorem extract_binary_not_an_archive (parent : FS.path) (dname fname : string)
    (info : conductr_info) (data : string) (pes : FS.entries) (root : FS.node)
    (Hinfo : extraction_dir info = parent ++ [dname])
    (Hknown : FS.known_archive_name fname = true)
    (Hnames : fname <> dname)
    (Hparent : FS.lookup parent root = Some (FS.Dir pes))
    (Hfile : FS.get fname pes = Some (FS.File (FS.Bytes data)))
    (Hdir : FS.get dname pes = None \/
            exists old, FS.get dname pes = Some (FS.Dir old)) :
  exists root',
    extract_binary (parent ++ [fname]) info root = (Raise ReadError, root') /\
    FS.lookup (parent ++ [dname]) root' = Some (FS.Dir []) /\
    (forall name rest, name <> dname ->
       FS.lookup (parent ++ name :: rest) root' =
       FS.lookup (parent ++ name :: rest) root).
Proof.
  set (pesB := FS.set dname (FS.Dir []) (FS.del dname pes)).
  assert (HpB : FS.lookup parent (graft parent (FS.Dir pesB) root) =
                Some (FS.Dir pesB)) by (eapply lookup_graft; exact Hparent).
  exists (graft parent (FS.Dir pesB) root). split; [|split].
  - apply (extract_binary_unpack_fails parent dname info _ pes root _ _
             Hinfo Hparent Hdir).
    fold pesB. unfold FS.unpack_archive, FS.basename.
    rewrite split_last_snoc, Hknown. unfold FS.bind, FS.query.
    rewrite (lookup_below parent [fname] _ _ HpB). cbn [FS.lookup].
    unfold pesB. rewrite get_set_other, get_del_other by congruence.
    now rewrite Hfile.
  - rewrite (lookup_below parent [dname] _ _ HpB). cbn [FS.lookup].
    unfold pesB. now rewrite get_set_same.
  - intros name rest Hn. now apply lookup_sibling.
Qed.

Lemma extract_binary_not_an_archive_witness :
  let root :=
    FS.Dir [ ("images",
              FS.Dir [ ("conductr-2.1.0.tgz", FS.File (FS.Bytes "<html>"));
                       ("core", FS.Dir [("old", FS.File (FS.Bytes "x"))]) ]) ] in
  exists root',
    extract_binary ["images"; "conductr-2.1.0.tgz"]
      (fst (resolve_conductr_info Demo.env ["images"])) root =
      (Raise ReadError, root') /\
    FS.lookup ["images"; "core"] root' = Some (FS.Dir []).
Proof.
  intros root.
  destruct (extract_binary_not_an_archive ["images"] "core" "conductr-2.1.0.tgz"
              (fst (resolve_conductr_info Demo.env ["images"])) "<html>"
              [ ("conductr-2.1.0.tgz", FS.File (FS.Bytes "<html>"));
                ("core", FS.Dir [("old", FS.File (FS.Bytes "x"))]) ]
              root eq_refl eq_refl ltac:(discriminate) eq_refl eq_refl
              ltac:(right; eexists; reflexivity))
    as (root' & Hrun & Hdir & _).
  exists root'. split; assumption.
Defined.

(** A regular file where the extraction directory should be: the
    extraction raises NotADirectoryError and changes nothing. *)
Theorem extract_binary_over_a_file (parent : FS.path) (dname : string)
    (info : conductr_info) (path : FS.path) (pes : FS.entries)
    (c : FS.content) (root : FS.node)
    (Hinfo : extraction_dir info = parent ++ [dname])
    (Hparent : FS.lookup parent root = Some (FS.Dir pes))
    (Hfile : FS.get dname pes = Some (FS.File c)) :
  extract_binary path info root = (Raise NotADirectoryError, root).
Proof. exact (extract_binary_blocked parent path info dname pes c root Hinfo Hparent Hfile). Qed.

Lemma extract_binary_over_a_file_witness :
  let root :=
    FS.Dir [ ("images",
              FS.Dir [ ("conductr-2.1.0.tgz", FS.File Demo.core_archive);
                       ("core", FS.File (FS.Bytes "x")) ]) ] in
  extract_binary ["images"; "conductr-2.1.0.tgz"]
    (fst (resolve_conductr_info Demo.env ["images"])) root =
  (Raise NotADirectoryError, root).
Proof.
  intros root.
  apply (extract_binary_over_a_file ["images"] "core"
           (fst (resolve_conductr_info Demo.env ["images"]))
           ["images"; "conductr-2.1.0.tgz"]
           [ ("conductr-2.1.0.tgz", FS.File Demo.core_archive);
             ("core", FS.File (FS.Bytes "x")) ]
           (FS.Bytes "x") root eq_refl eq_refl eq_refl).
Defined.

(** ** [resolve_binaries]: what is asked of the artifact service *)

Local Open Scope string_scope.
Local Open Scope list_scope.

Lemma bind_returns {A B} (m : M A) (k : A -> M B) (w w' : World) (b : B) :
  bind m k w = (Ok b, w') ->
  exists a w1, m w = (Ok a, w1) /\ k a w1 = (Ok b, w').
Proof.
  unfold bind. destruct (m w) as [[a|e] w1]; [eauto|discriminate].
Qed.

Lemma lift_fs_frame {A} (m : FS.F A) (w w' : World) (r : result A) :
  lift_fs m w = (r, w') ->
  probes w' = probes w /\ processes w' = processes w /\
  bintray_calls w' = bintray_calls w /\ next_pid w' = next_pid w.
Proof.
  unfold lift_fs. destruct (m (fs w)) as [r0 root]. intros H.
  injection H as _ <-. repeat split.
Qed.

(** A download is one call to the resolver, whatever comes of it. *)
Lemma bintray_download_calls (env : Env) (dir : FS.path)
    (org repo pkg : string) (auth : string * string * string) (v : string)
    (w w' : World) (r : result (bool * string * FS.path)) :
  bintray_download env dir org repo pkg auth v w = (r, w') ->
  bintray_calls w' = bintray_calls w ++ [Download pkg v] /\
  probes w' = probes w /\ processes w' = processes w /\
  next_pid w' = next_pid w.
Proof.
  unfold bintray_download. unfold bind at 1, record_call.
  set (w0 := mkWorld (fs w) (probes w) (processes w)
               (bintray_calls w ++ [Download pkg v]) (next_pid w)).
  destruct (bintray_reply env pkg v) as [file_name archive| |status].
  - unfold bind at 1.
    destruct (lift_fs _ w0) as [[u|e] w1] eqn:E1.
    + unfold bind at 1.
      destruct (lift_fs _ w1) as [[u2|e] w2] eqn:E2; intros H;
        injection H as _ <-;
        destruct (lift_fs_frame _ _ _ _ E1) as (P1 & P2 & P3 & P4);
        destruct (lift_fs_frame _ _ _ _ E2) as (Q1 & Q2 & Q3 & Q4);
        rewrite Q1, Q2, Q3, Q4, P1, P2, P3, P4; repeat split.
    + intros H. injection H as _ <-.
      destruct (lift_fs_frame _ _ _ _ E1) as (P1 & P2 & P3 & P4).
      rewrite P1, P2, P3, P4. repeat split.
  - intros H. injection H as _ <-. repeat split.
  - intros H. injection H as _ <-. repeat split.
Qed.

Section ResolveBinaries.

Variable env : Env.
Variable dir : FS.path.
Variable v : string.
Variables core_info agent_info : conductr_info.

(** When [resolve_binaries] returns: a kind found in the cache is returned
    from the cache and never downloaded; if a kind is missing, the
    credentials are loaded once, then the missing kinds are downloaded, the
    core first; with nothing missing the resolver is not called at all. *)
Theorem resolve_binaries_calls (w w' : World) (core_path agent_path : FS.path)
    (H : resolve_binaries env dir v core_info agent_info w =
         (Ok (core_path, agent_path), w')) :
  let core_cached := FS.exists_ (core_cache_path dir v) (fs w) in
  let agent_cached := FS.exists_ (agent_cache_path dir v) (fs w) in
  bintray_calls w' =
    bintray_calls w ++
    (if core_cached && agent_cached then []
     else LoadCredentials ::
          (if core_cached then []
           else [Download (bintray_package_name core_info) v]) ++
          (if agent_cached then []
           else [Download (bintray_package_name agent_info) v])) /\
  (core_cached = true -> core_path = core_cache_path dir v) /\
  (agent_cached = true -> agent_path = agent_cache_path dir v) /\
  processes w' = processes w /\ probes w' = probes w.
Proof.
  intros core_cached agent_cached.
  unfold resolve_binaries, bind at 1, resolve_binary_from_cache at 1 in H.
  unfold bind at 1, resolve_binary_from_cache at 1 in H.
  cbn [fs] in H. fold core_cached agent_cached in H.
  destruct core_cached, agent_cached; cbn [andb].
  1: { unfold ret in H. injection H as <- <- <-. rewrite app_nil_r.
       repeat split. }
  all: unfold try_except in H.
  all: match type of H with
       | (match ?m ?w0 with _ => _ end) = _ =>
           destruct (m w0) as [[p|e] w1] eqn:E
       end; [|destruct e; discriminate H].
  all: injection H as -> <-.
  all: unfold load_bintray_credentials in E.
  all: apply bind_returns in E; destruct E as ([user password] & w2 & Ecred & E).
  all: unfold bind, record_call, ret in Ecred; injection Ecred as _ <-.
  all: cbv beta iota in E.
  all: apply bind_returns in E; destruct E as (cp & w3 & Ec & E).
  all: apply bind_returns in E; destruct E as (ap & w4 & Ea & E).
  all: unfold ret in E; injection E as -> -> <-.
  - (* the agent archive is missing *)
    unfold ret in Ec. injection Ec as <- <-.
    apply bind_returns in Ea. destruct Ea as ([[b n] q] & w5 & Ed & E).
    unfold ret in E. injection E as <- <-.
    apply bintray_download_calls in Ed. destruct Ed as (C1 & C2 & C3 & _).
    cbn [bintray_calls probes processes] in C1, C2, C3.
    rewrite C1, C2, C3, <- app_assoc. repeat split. discriminate.
  - (* the core archive is missing *)
    unfold ret in Ea. injection Ea as <- <-.
    apply bind_returns in Ec. destruct Ec as ([[b n] q] & w5 & Ed & E).
    unfold ret in E. injection E as <- <-.
    apply bintray_download_calls in Ed. destruct Ed as (C1 & C2 & C3 & _).
    cbn [bintray_calls probes processes] in C1, C2, C3.
    rewrite C1, C2, C3, <- app_assoc. repeat split. discriminate.
  - (* both are missing *)
    apply bind_returns in Ec. destruct Ec as ([[b n] q] & w5 & Ed & E).
    unfold ret in E. injection E as <- <-.
    apply bind_returns in Ea. destruct Ea as ([[b2 n2] q2] & w6 & Ed2 & E).
    unfold ret in E. injection E as <- <-.
    apply bintray_download_calls in Ed. destruct Ed as (C1 & C2 & C3 & _).
    apply bintray_download_calls in Ed2. destruct Ed2 as (D1 & D2 & D3 & _).
    cbn [bintray_calls probes processes] in C1, C2, C3.
    rewrite D1, D2, D3, C1, C2, C3, <- !app_assoc.
    repeat split; discriminate.
Qed.

End ResolveBinaries.

Lemma resolve_binaries_calls_witness :
  exists w',
    resolve_binaries Samples.env_serving_agent Demo.images "2.1.0"
      (fst (resolve_conductr_info Samples.env_serving_agent Demo.images))
      (snd (resolve_conductr_info Samples.env_serving_agent Demo.images))
      Demo.world_core_only =
      (Ok (Demo.images ++ ["conductr-2.1.0.tgz"],
           Demo.images ++ ["conductr-agent-2.1.0.tgz"]), w') /\
    bintray_calls w' = [LoadCredentials; Download "ConductR-Agent-Universal" "2.1.0"].
Proof.
  destruct (resolve_binaries Samples.env_serving_agent Demo.images "2.1.0"
              (fst (resolve_conductr_info Samples.env_serving_agent Demo.images))
              (snd (resolve_conductr_info Samples.env_serving_agent Demo.images))
              Demo.world_core_only) as [r w'] eqn:E.
  assert (Hr : r = Ok (Demo.images ++ ["conductr-2.1.0.tgz"],
                       Demo.images ++ ["conductr-agent-2.1.0.tgz"])).
  { apply (f_equal fst) in E. vm_compute in E. now subst r. }
  subst r. exists w'. split; [reflexivity|].
  pose proof (proj1 (resolve_binaries_calls _ _ _ _ _ _ _ _ _ E)) as C.
  vm_compute in C. exact C.
Defined.

(** With something missing from the cache and an artifact service that
    cannot be reached, obtaining the image raises BintrayUnreachableError
    after the first download is attempted; nothing is extracted: the file
    system is as it was. *)
Theorem obtain_sandbox_image_unreachable (env : Env) (dir : FS.path)
    (v : string) (w : World)
    (Hmissing : FS.exists_ (core_cache_path dir v) (fs w) &&
                FS.exists_ (agent_cache_path dir v) (fs w) = false)
    (Hreply : forall package_name, bintray_reply env package_name v = Unreachable) :
  exists w',
    obtain_sandbox_image env dir v w =
      (Raise (BintrayUnreachableError "Bintray is unreachable."), w') /\
    fs w' = fs w /\ processes w' = processes w /\
    bintray_calls w' =
      bintray_calls w ++
      [LoadCredentials;
       Download (if FS.exists_ (core_cache_path dir v) (fs w)
                 then agent_package_name env else core_package_name env) v].
Proof.
  unfold obtain_sandbox_image, resolve_conductr_info. unfold bind at 1.
  unfold resolve_binaries, bind at 1, resolve_binary_from_cache at 1.
  unfold bind at 1, resolve_binary_from_cache at 1. cbn [fs].
  destruct (FS.exists_ (core_cache_path dir v) (fs w));
    destruct (FS.exists_ (agent_cache_path dir v) (fs w));
    [discriminate Hmissing| | |].
  all: unfold try_except, load_bintray_credentials, bind, record_call, ret,
         bintray_download, raise.
  all: destruct (bintray_credentials env) as [user password].
  all: cbn [bintray_package_name]; rewrite Hreply.
  all: eexists; split; [reflexivity|].
  all: cbn [fs processes bintray_calls]; rewrite <- app_assoc; repeat split.
Qed.

Lemma obtain_sandbox_image_unreachable_witness :
  exists w',
    obtain_sandbox_image Demo.env Demo.images "2.1.0" Demo.world_core_only =
      (Raise (BintrayUnreachableError "Bintray is unreachable."), w') /\
    fs w' = fs Demo.world_core_only.
Proof.
  destruct (obtain_sandbox_image_unreachable Demo.env Demo.images "2.1.0"
              Demo.world_core_only eq_refl (fun _ => eq_refl))
    as (w' & H & Hfs & _).
  exists w'. split; assumption.
Defined.

(** ** [run]: the order of the steps and the shape of the result *)

Local Open Scope list_scope.
Local Open Scope Z_scope.

(** An expression that does not parse, or a JVM that is not supported,
    stops the run before anything else happens: the sandbox that may be
    running is not stopped and the world is untouched. *)
Theorem run_preflight (env : Env) (args : Args) (features : list string)
    (w : World) (e : exn)
    (H : instance_count (image_version args) (nr_of_containers args) = Raise e \/
         ((exists counts,
             instance_count (image_version args) (nr_of_containers args) =
             Ok counts) /\
          validate_jvm_support (java_version env) = Raise e)) :
  run env args features w = (Raise e, w).
Proof.
  unfold run, bind, lift. destruct H as [H|[[[c a] Hc] Hj]].
  - now rewrite H.
  - now rewrite Hc, Hj.
Qed.

Lemma run_preflight_witness :
  run Demo.env (Demo.args "two") [] Demo.world =
  (Raise (InstanceCountError "2.1.0" "two" instance_count_message), Demo.world).
Proof.
  apply (run_preflight Demo.env (Demo.args "two") [] Demo.world).
  left. reflexivity.
Defined.

(** A successful allocation of k >= 1 addresses gives k of them, the
    first bindable hosts of the range. *)
Lemma find_bind_addrs_returns (env : Env) (k : Z) (range : IP.IPv4Network)
    (w w' : World) (addrs : list IP.IPv4Address) :
  1 <= k ->
  find_bind_addrs env k range w = (Ok addrs, w') ->
  Z.of_nat (List.length addrs) = k /\
  fs w' = fs w /\ processes w' = processes w /\
  bintray_calls w' = bintray_calls w.
Proof.
  intros Hk H. unfold find_bind_addrs in H. unfold bind at 1 in H.
  destruct (find_bind_addrs_loop_spec env k (IP.hosts range) [] [] w)
    as (scanned & rest & Hh & Hrun & Hend); [cbn; lia|].
  rewrite Hrun in H. cbn [app] in H, Hend.
  destruct Hend as [[_ Hlt]|[Hlen _]].
  - apply Z.ltb_lt in Hlt. rewrite Hlt in H. discriminate H.
  - assert (Hge : (Z.of_nat (List.length (filter (bindable env) scanned)) <? k)
                  = false) by (apply Z.ltb_ge; lia).
    rewrite Hge in H. unfold ret in H. injection H as <- <-.
    repeat split. exact Hlen.
Qed.

(** Too few bindable hosts: the allocation raises, and by then only probes
    were made. *)
Lemma find_bind_addrs_short (env : Env) (k : Z) (range : IP.IPv4Network)
    (w : World) :
  Z.of_nat (List.length (filter (bindable env) (IP.hosts range))) < k ->
  exists instructions w',
    find_bind_addrs env k range w =
      (Raise (BindAddressNotFoundError instructions), w') /\
    fs w' = fs w /\ processes w' = processes w /\
    bintray_calls w' = bintray_calls w.
Proof.
  intros H.
  destruct (find_bind_addrs_loop_spec env k (IP.hosts range) [] [] w)
    as (scanned & rest & Hh & Hrun & Hend);
    [cbn; pose proof (Nat2Z.is_nonneg
                        (List.length (filter (bindable env) (IP.hosts range))));
     lia|].
  cbn [app] in Hrun, Hend.
  assert (Hle : (List.length (filter (bindable env) scanned) <=
                 List.length (filter (bindable env) (IP.hosts range)))%nat).
  { rewrite Hh, filter_app, length_app. lia. }
  unfold find_bind_addrs, bind at 1. rewrite Hrun. cbv beta iota.
  assert (Hb : (Z.of_nat (List.length (filter (bindable env) scanned)) <? k)
               = true) by (apply Z.ltb_lt; lia).
  rewrite Hb. unfold raise. eexists. eexists. repeat split.
Qed.

(** With too few bindable addresses for the larger of the two counts, the
    run raises BindAddressNotFoundError before any artifact is resolved or
    extracted and before any process is started. *)
Theorem run_without_addresses (env : Env) (args : Args) (features : list string)
    (w w1 : World) (nr_core nr_agent : Z)
    (Hcount : instance_count (image_version args) (nr_of_containers args) =
              Ok (nr_core, nr_agent))
    (Hjvm : validate_jvm_support (java_version env) = Ok tt)
    (Hstop : sandbox_stop env args w = (Ok tt, w1))
    (Hshort : Z.of_nat (List.length (filter (bindable env)
                                       (IP.hosts (addr_range args))))
              < Z.max nr_core nr_agent) :
  exists instructions w2,
    run env args features w =
      (Raise (BindAddressNotFoundError instructions), w2) /\
    fs w2 = fs w1 /\ processes w2 = processes w1 /\
    bintray_calls w2 = bintray_calls w1.
Proof.
  destruct (find_bind_addrs_short env _ (addr_range args) w1 Hshort)
    as (instructions & w2 & Hf & F1 & F2 & F3).
  exists instructions, w2. split; [|auto].
  unfold run, bind, lift. now rewrite Hcount, Hjvm, Hstop, Hf.
Qed.

Lemma run_without_addresses_witness :
  exists instructions w2,
    run Demo.env_unbindable (Demo.args "1") [] Demo.world =
      (Raise (BindAddressNotFoundError instructions), w2) /\
    fs w2 = fs Demo.world /\ bintray_calls w2 = [].
Proof.
  destruct (run_without_addresses Demo.env_unbindable (Demo.args "1") []
              Demo.world Demo.world 1 1 eq_refl eq_refl eq_refl
              ltac:(vm_compute; reflexivity))
    as (instructions & w2 & H & F1 & _ & F3).
  exists instructions, w2. auto.
Defined.

Lemma start_core_instances_pids (dir : FS.path) (addrs : list IP.IPv4Address)
    (w w' : World) (pids : list Z) :
  start_core_instances dir addrs w = (Ok pids, w') ->
  List.length pids = List.length addrs.
Proof.
  intros H. apply start_core_loop_spec in H.
  destruct H as (ps & _ & _ & Hok).
  destruct (Hok pids eq_refl) as [-> Hlen].
  cbn [app]. now rewrite length_map.
Qed.

Lemma start_agent_instances_pids (dir : FS.path) (addrs : list IP.IPv4Address)
    (w w' : World) (pids : list Z) :
  start_agent_instances dir addrs w = (Ok pids, w') ->
  List.length pids = List.length addrs.
Proof.
  intros H. apply start_agent_loop_spec in H.
  destruct H as (ps & _ & _ & Hok).
  destruct (Hok pids eq_refl) as [-> Hlen].
  cbn [app]. now rewrite length_map.
Qed.

Lemma slice_to_length {A} (xs : list A) (n : Z) :
  0 <= n <= Z.of_nat (List.length xs) ->
  Z.of_nat (List.length (Py.slice_to xs n)) = n.
Proof.
  intros H. unfold Py.slice_to.
  destruct (Z.ltb_spec n 0); [lia|]. rewrite length_firstn. lia.
Qed.

Lemma run_returns_shape (env : Env) (args : Args) (features : list string)
    (w w' : World) (nr_core nr_agent : Z) (r : SandboxRunResult)
    (Hcount : instance_count (image_version args) (nr_of_containers args) =
              Ok (nr_core, nr_agent))
    (Hcore : 0 <= nr_core) (Hagent : 0 <= nr_agent)
    (Hrun : run env args features w = (Ok r, w')) :
  1 <= nr_core /\
  Z.of_nat (List.length (core_addrs r)) = nr_core /\
  Z.of_nat (List.length (core_pids r)) = nr_core /\
  Z.of_nat (List.length (agent_addrs r)) = nr_agent /\
  Z.of_nat (List.length (agent_pids r)) = nr_agent /\
  (exists first, hd_error (core_addrs r) = Some first /\ host r = IP.str first) /\
  (forall i, (i < List.length (core_addrs r))%nat ->
             (i < List.length (agent_addrs r))%nat ->
             nth_error (agent_addrs r) i = nth_error (core_addrs r) i) /\
  nr_of_proxy_instances r = NR_OF_PROXY_INSTANCE.
Proof.
  unfold run in Hrun.
  apply bind_returns in Hrun. destruct Hrun as ([c a] & w0 & E0 & Hrun).
  unfold lift in E0. rewrite Hcount in E0. injection E0 as <- <- <-.
  apply bind_returns in Hrun. destruct Hrun as (u1 & w1 & _ & Hrun).
  apply bind_returns in Hrun. destruct Hrun as (u2 & w2 & _ & Hrun).
  apply bind_returns in Hrun. destruct Hrun as (bind_addrs & w3 & Ef & Hrun).
  apply bind_returns in Hrun. destruct Hrun as ([cd ad] & w4 & _ & Hrun).
  apply bind_returns in Hrun. destruct Hrun as (cp & w5 & Ec & Hrun).
  apply bind_returns in Hrun. destruct Hrun as (ap & w6 & Ea & Hrun).
  unfold lift, SandboxRunResult_init in Hrun.
  destruct (Py.index (Py.slice_to bind_addrs nr_core) 0) as [first|e] eqn:Ei;
    cbn [rbind] in Hrun; [|discriminate Hrun].
  injection Hrun as <- _.
  cbn [core_addrs core_pids agent_addrs agent_pids host nr_of_proxy_instances].
  assert (H1 : 1 <= nr_core).
  { destruct (Z.eq_dec nr_core 0) as [->|]; [discriminate Ei|lia]. }
  assert (Hk : 1 <= Z.max nr_core nr_agent) by lia.
  pose proof (find_bind_addrs_returns env _ _ _ _ _ Hk Ef) as (Hlen & _).
  apply start_core_instances_pids in Ec.
  apply start_agent_instances_pids in Ea.
  assert (Lc := slice_to_length bind_addrs nr_core ltac:(lia)).
  assert (La := slice_to_length bind_addrs nr_agent ltac:(lia)).
  split; [exact H1|]. split; [exact Lc|]. split; [now rewrite Ec|].
  split; [exact La|]. split; [now rewrite Ea|]. split.
  { exists first. split; [|reflexivity].
    unfold Py.index in Ei.
    destruct (Py.slice_to bind_addrs nr_core) as [|x l]; [discriminate Ei|].
    cbn in Ei. cbn. congruence. }
  split; [|reflexivity].
  intros i Hic Hia. unfold Py.slice_to in *.
  destruct (Z.ltb_spec nr_core 0); [lia|].
  destruct (Z.ltb_spec nr_agent 0); [lia|].
  rewrite !nth_error_firstn. rewrite !length_firstn in *.
  assert (Xc : (i <? Z.to_nat nr_core)%nat = true) by (apply Nat.ltb_lt; lia).
  assert (Xa : (i <? Z.to_nat nr_agent)%nat = true) by (apply Nat.ltb_lt; lia).
  now rewrite Xc, Xa.
Qed.

(** Every result [run] returns, for counts that are not negative: there is
    at least one core instance; there are as many core addresses and core
    pids as the core count, as many agent addresses and agent pids as the
    agent count; the host is the text of the first core address; the agent
    at an index that a core instance also has is bound to the same address;
    there is one proxy instance. *)
Theorem run_result_shape (env : Env) (args : Args) (features : list string)
    (w w' : World) (nr_core nr_agent : Z) (r : SandboxRunResult)
    (Hcount : instance_count (image_version args) (nr_of_containers args) =
              Ok (nr_core, nr_agent))
    (Hcore : 0 <= nr_core) (Hagent : 0 <= nr_agent)
    (Hrun : run env args features w = (Ok r, w')) :
  1 <= nr_core /\
  Z.of_nat (List.length (core_addrs r)) = nr_core /\
  Z.of_nat (List.length (core_pids r)) = nr_core /\
  Z.of_nat (List.length (agent_addrs r)) = nr_agent /\
  Z.of_nat (List.length (agent_pids r)) = nr_agent /\
  (exists first, hd_error (core_addrs r) = Some first /\ host r = IP.str first) /\
  (forall i, (i < List.length (core_addrs r))%nat ->
             (i < List.length (agent_addrs r))%nat ->
             nth_error (agent_addrs r) i = nth_error (core_addrs r) i) /\
  nr_of_proxy_instances r = NR_OF_PROXY_INSTANCE.
Proof.
  exact (run_returns_shape env args features w w' nr_core nr_agent r
           Hcount Hcore Hagent Hrun).
Qed.

Lemma run_result_shape_witness :
  exists r w',
    run Demo.env (Demo.args "2:1") [] Demo.world = (Ok r, w') /\
    List.length (core_pids r) = 2%nat /\ List.length (agent_pids r) = 1%nat /\
    host r = "192.168.128.1"%string.
Proof.
  destruct (run Demo.env (Demo.args "2:1") [] Demo.world) as [[r|e] w'] eqn:E;
    [|apply (f_equal fst) in E; vm_compute in E; discriminate E].
  pose proof (run_result_shape Demo.env (Demo.args "2:1") [] Demo.world w' 2 1 r
                eq_refl ltac:(lia) ltac:(lia) E)
    as (_ & _ & Hcp & _ & Hap & _).
  exists r, w'. split; [reflexivity|].
  split; [lia|]. split; [lia|].
  apply (f_equal (fun x => match fst x with Ok r => host r | Raise _ => EmptyString end))
    in E.
  vm_compute in E. symmetry. exact E.
Defined.

(** ** [validate_jvm_support]: which versions are accepted *)

Local Open Scope string_scope.
Local Open Scope Z_scope.

Lemma avoids_app (bad : ascii -> bool) (s1 s2 : string) :
  avoids bad (s1 ++ s2) = avoids bad s1 && avoids bad s2.
Proof.
  induction s1 as [|c s1 IH]; cbn [append avoids]; [reflexivity|].
  now rewrite IH, andb_assoc.
Qed.

Lemma avoids_weaken (bad bad' : ascii -> bool) (s : string) :
  (forall c, bad c = false -> bad' c = false) ->
  avoids bad s = true -> avoids bad' s = true.
Proof.
  intros Hb. induction s as [|c r IH]; cbn [avoids]; [reflexivity|].
  intros H. apply andb_true_iff in H. destruct H as [Hc Hr].
  apply negb_true_iff in Hc. now rewrite (Hb c Hc), IH.
Qed.



Lemma split_avoids (sep : ascii) (s : string) :
  avoids (Ascii.eqb sep) s = true -> Py.split sep s = [s].
Proof.
  induction s as [|c r IH]; cbn [avoids Py.split]; [reflexivity|].
  intros H. apply andb_true_iff in H. destruct H as [Hc Hr].
  apply negb_true_iff in Hc. rewrite Ascii.eqb_sym in Hc.
  now rewrite Hc, (IH Hr).
Qed.

Lemma split_at_sep (sep : ascii) (s1 s2 : string) :
  avoids (Ascii.eqb sep) s1 = true ->
  Py.split sep (s1 ++ String sep s2) = s1 :: Py.split sep s2.
Proof.
  induction s1 as [|c r IH]; cbn [avoids append Py.split].
  - intros _. now rewrite Ascii.eqb_refl.
  - intros H. apply andb_true_iff in H. destruct H as [Hc Hr].
    apply negb_true_iff in Hc. rewrite Ascii.eqb_sym in Hc.
    now rewrite Hc, (IH Hr).
Qed.


Lemma drop_final_newline_rest (s : string) :
  starts_new_line s -> starts_new_line (Subprocess.drop_final_newline s).
Proof.
  intros [->|(c & r & -> & Hc)]; [now left|].
  cbn [Subprocess.drop_final_newline].
  destruct c as [[] [] [] [] [] [] [] []]; try discriminate Hc;
    try (right; eexists; eexists; split; [reflexivity|reflexivity]).
  destruct r; [now left|right; eexists; eexists; split; reflexivity].
Qed.

Lemma drop_final_newline_line (line more : string) :
  avoids Py.is_linebreak line = true ->
  Subprocess.drop_final_newline (line ++ more) =
  line ++ Subprocess.drop_final_newline more.
Proof.
  induction line as [|c r IH]; cbn [avoids append]; [reflexivity|].
  intros H. apply andb_true_iff in H. destruct H as [Hc Hr].
  apply negb_true_iff in Hc.
  cbn [Subprocess.drop_final_newline]. rewrite <- (IH Hr).
  destruct c as [[] [] [] [] [] [] [] []]; try reflexivity.
  discriminate Hc.
Qed.

Lemma splitlines_first (line more : string) :
  line <> "" -> avoids Py.is_linebreak line = true -> starts_new_line more ->
  exists ls, Py.splitlines (line ++ more) = line :: ls.
Proof.
  induction line as [|c r IH]; [congruence|]. intros _ H Hm.
  cbn [avoids] in H. apply andb_true_iff in H. destruct H as [Hc Hr].
  apply negb_true_iff in Hc. cbn [append Py.splitlines]. rewrite Hc.
  destruct r as [|c' r'].
  - cbn [append]. destruct Hm as [->|(c1 & r1 & -> & Hc1)].
    + exists []. reflexivity.
    + cbn [Py.splitlines]. rewrite Hc1.
      destruct c1 as [[] [] [] [] [] [] [] []]; try discriminate Hc1;
        try (eexists; reflexivity).
      destruct r1 as [|c2 r2]; [eexists; reflexivity|].
      destruct c2 as [[] [] [] [] [] [] [] []]; eexists; reflexivity.
  - destruct (IH ltac:(discriminate) Hr Hm) as (ls & E).
    rewrite E. eexists. reflexivity.
Qed.

Lemma getoutput_eq (p : Subprocess.Completed) :
  Subprocess.getoutput p =
  Ok (Subprocess.drop_final_newline (Subprocess.output p)).
Proof.
  unfold Subprocess.getoutput, Subprocess.getstatusoutput, Subprocess.check_output.
  now destruct (Subprocess.returncode p =? 0).
Qed.




(** Any vendor other than `java` is refused with JavaUnsupportedVendorError,
    whatever the version (the version is not even read). *)
Theorem validate_jvm_support_vendor (status : Z) (vendor version more : string)
    (Hvendor : avoids breaks_version vendor = true)
    (Hversion : avoids breaks_version version = true)
    (Hother : vendor <> SUPPORTED_JVM_VENDOR)
    (Hmore : starts_new_line more) :
  validate_jvm_support
    (Subprocess.mkCompleted status (version_line vendor version ++ more)) =
  Raise (JavaUnsupportedVendorError vendor).
Proof.
  assert (Wblank : forall c, breaks_version c = false -> Ascii.eqb " " c = false).
  { intros c Hc. unfold breaks_version in Hc.
    apply orb_false_iff in Hc. destruct Hc as [Hc _].
    apply orb_false_iff in Hc. destruct Hc as [Hc _].
    now rewrite Ascii.eqb_sym. }
  assert (Wline : forall c, breaks_version c = false -> Py.is_linebreak c = false).
  { intros c Hc. unfold breaks_version in Hc.
    apply orb_false_iff in Hc. destruct Hc as [Hc _].
    apply orb_false_iff in Hc. tauto. }
  set (quoted := String double_quote (version ++ String double_quote "")).
  assert (Hq : forall bad, bad double_quote = false ->
                 avoids bad version = true -> avoids bad quoted = true).
  { intros bad Hb Hv. unfold quoted. cbn [avoids].
    rewrite avoids_app, Hv, Hb. cbn [avoids]. now rewrite Hb. }
  assert (Hline : version_line vendor version =
                  vendor ++ String " " ("version" ++ String " " quoted))
    by reflexivity.
  assert (Lline : avoids Py.is_linebreak (version_line vendor version) = true).
  { rewrite Hline, avoids_app, (avoids_weaken _ _ _ Wline Hvendor).
    cbn [avoids andb negb append]. 
    rewrite (Hq Py.is_linebreak eq_refl (avoids_weaken _ _ _ Wline Hversion)).
    reflexivity. }
  unfold validate_jvm_support. rewrite getoutput_eq. cbn [rbind Subprocess.output].
  rewrite (drop_final_newline_line _ _ Lline).
  destruct (splitlines_first (version_line vendor version)
              (Subprocess.drop_final_newline more)) as (ls & Els).
  { rewrite Hline. destruct vendor; discriminate. }
  { exact Lline. }
  { now apply drop_final_newline_rest. }
  rewrite Els. cbv zeta.
  rewrite Hline, (split_at_sep " " vendor)
    by exact (avoids_weaken _ _ _ Wblank Hvendor).
  rewrite (split_at_sep " " "version") by reflexivity.
  rewrite (split_avoids " " quoted)
    by (apply Hq; [reflexivity|exact (avoids_weaken _ _ _ Wblank Hversion)]).
  change (List.length [vendor; "version"; quoted] =? 3)%nat with true.
  cbv iota. cbn [Py.index nth_error rbind].
  apply String.eqb_neq in Hother. now rewrite Hother.
Qed.

Lemma validate_jvm_support_vendor_witness :
  validate_jvm_support
    (Subprocess.mkCompleted 0 (version_line "openjdk" "1.8.0_292" ++ "")) =
  Raise (JavaUnsupportedVendorError "openjdk").
Proof.
  apply (validate_jvm_support_vendor 0 "openjdk" "1.8.0_292" "");
    [reflexivity|reflexivity|discriminate|now left].
Defined.

(** ** Launching changes the process table only *)

Local Open Scope list_scope.
Local Open Scope Z_scope.

Lemma Popen_frame (cmds : list string) (dir : FS.path) (w w' : World)
    (r : result Z) :
  Popen cmds dir w = (r, w') ->
  fs w' = fs w /\ probes w' = probes w /\ bintray_calls w' = bintray_calls w /\
  next_pid w <= next_pid w'.
Proof.
  destruct (Popen_spec cmds dir w) as [[e E]|E]; rewrite E; intros H;
    injection H as _ <-; cbn; repeat split; lia.
Qed.

Lemma start_core_loop_frame (dir : FS.path) (addrs : list IP.IPv4Address) :
  forall todo idx pids w r w',
  start_core_loop dir addrs idx todo pids w = (r, w') ->
  fs w' = fs w /\ probes w' = probes w /\ bintray_calls w' = bintray_calls w /\
  next_pid w <= next_pid w'.
Proof.
  induction todo as [|a rest IH]; intros idx pids w r w' H.
  - injection H as _ <-. repeat split. lia.
  - cbn [start_core_loop] in H. unfold bind at 1, lift in H.
    destruct (core_commands dir addrs idx a) as [cmds|e].
    2:{ injection H as _ <-. repeat split. lia. }
    unfold bind at 1 in H.
    destruct (Popen cmds dir w) as [[p|e] w1] eqn:E;
      apply Popen_frame in E; destruct E as (F1 & F2 & F3 & F4).
    + apply IH in H. destruct H as (G1 & G2 & G3 & G4).
      rewrite G1, G2, G3. repeat split; try assumption. lia.
    + injection H as _ <-. auto.
Qed.

Lemma start_agent_loop_frame (dir : FS.path) :
  forall todo idx pids w r w',
  start_agent_loop dir idx todo pids w = (r, w') ->
  fs w' = fs w /\ probes w' = probes w /\ bintray_calls w' = bintray_calls w /\
  next_pid w <= next_pid w'.
Proof.
  induction todo as [|a rest IH]; intros idx pids w r w' H.
  - injection H as _ <-. repeat split. lia.
  - cbn [start_agent_loop] in H. unfold bind at 1 in H.
    destruct (Popen (agent_commands dir a) dir w) as [[p|e] w1] eqn:E;
      apply Popen_frame in E; destruct E as (F1 & F2 & F3 & F4).
    + apply IH in H. destruct H as (G1 & G2 & G3 & G4).
      rewrite G1, G2, G3. repeat split; try assumption. lia.
    + injection H as _ <-. auto.
Qed.

(** Whether it returns or raises, launching the core or the agent instances
    leaves the file system, the probes and the resolver calls as they were;
    the processes spawned before a failure stay (see [start_core_loop_spec]:
    the process table only grows). *)
Theorem launch_only_spawns (dir : FS.path) (addrs : list IP.IPv4Address)
    (w : World) :
  let wc := snd (start_core_instances dir addrs w) in
  let wa := snd (start_agent_instances dir addrs w) in
  (fs wc = fs w /\ probes wc = probes w /\ bintray_calls wc = bintray_calls w /\
   exists spawned, processes wc = processes w ++ spawned) /\
  (fs wa = fs w /\ probes wa = probes w /\ bintray_calls wa = bintray_calls w /\
   exists spawned, processes wa = processes w ++ spawned).
Proof.
  intros wc wa. subst wc wa. unfold start_core_instances, start_agent_instances.
  destruct (start_core_loop dir addrs 0 addrs [] w) as [rc wc] eqn:Ec.
  destruct (start_agent_loop dir 0 addrs [] w) as [ra wa] eqn:Ea.
  cbn [snd].
  destruct (start_core_loop_frame _ _ _ _ _ _ _ _ Ec) as (C1 & C2 & C3 & _).
  destruct (start_agent_loop_frame _ _ _ _ _ _ _ Ea) as (A1 & A2 & A3 & _).
  apply start_core_loop_spec in Ec. destruct Ec as (pc & Hpc & _).
  apply start_agent_loop_spec in Ea. destruct Ea as (pa & Hpa & _).
  repeat split; try assumption; eauto.
Qed.

(** ** [SandboxRunResult.__eq__] *)

Lemma list_eqb_eq {A} (eqb : A -> A -> bool) :
  (forall x y, eqb x y = true <-> x = y) ->
  forall xs ys, list_eqb eqb xs ys = true <-> xs = ys.
Proof.
  intros Heq. induction xs as [|x xs IH]; intros [|y ys]; cbn [list_eqb];
    try (split; [discriminate|discriminate]); [tauto|].
  rewrite andb_true_iff, Heq, IH. split.
  - intros [-> ->]. reflexivity.
  - intros E. injection E as -> ->. auto.
Qed.

Lemma IP_eqb_eq (a b : IP.IPv4Address) : IP.eqb a b = true <-> a = b.
Proof.
  unfold IP.eqb. rewrite Z.eqb_eq. destruct a as [x], b as [y]. cbn.
  split; [now intros ->|now intros E; injection E].
Qed.

(** [__eq__] holds exactly between equal results, and never with an object
    of another class; so two results that [__init__] builds from the same
    arguments are equal. *)
Theorem SandboxRunResult_eq_spec (self : SandboxRunResult)
    (other : option SandboxRunResult) :
  SandboxRunResult_eq self other = true <-> other = Some self.
Proof.
  destruct other as [other|]; cbn [SandboxRunResult_eq];
    [|split; discriminate].
  unfold dict_eq. rewrite !andb_true_iff.
  rewrite !(list_eqb_eq Z.eqb Z.eqb_eq), !(list_eqb_eq IP.eqb IP_eqb_eq),
    Z.eqb_eq, String.eqb_eq.
  destruct self, other; cbn. split.
  - intros (((((-> & ->) & ->) & ->) & ->) & ->). reflexivity.
  - intros E. injection E as -> -> -> -> -> ->. repeat split.
Qed.

(** ** [log_run_attempt] after [run] *)

Local Open Scope string_scope.

(** After a [run] that returned for the counts [nr_core:nr_agent], the
    summary of a started sandbox reports these two counts, each with the
    plural s exactly above one, logs no error, and asks [conduct info] once,
    at the first core address. *)
Theorem log_run_attempt_after_run (env : Env) (args : Args)
    (features : list string) (w w' : World) (nr_core nr_agent : Z)
    (r : SandboxRunResult) (headline : string -> string) (wait_timeout : Z)
    (Hcount : instance_count (image_version args) (nr_of_containers args) =
              Ok (nr_core, nr_agent))
    (Hcore : 0 <= nr_core) (Hagent : 0 <= nr_agent)
    (Hrun : run env args features w = (Ok r, w')) :
  exists first,
    hd_error (core_addrs r) = Some first /\
    log_run_attempt headline false r true wait_timeout =
      ([ LogInfo (headline "Summary");
         LogInfo "ConductR has been started:";
         LogInfo ("  core: " ++ Py.str nr_core ++ " instance" ++
                  (if (1 <? nr_core)%Z then "s" else EmptyString));
         LogInfo ("  agent: " ++ Py.str nr_agent ++ " instance" ++
                  (if (1 <? nr_agent)%Z then "s" else EmptyString));
         LogInfo "Check current bundle status with:";
         LogInfo "  conduct info" ],
       [ ["info"; "--host"; IP.str first] ]).
Proof.
  destruct (run_returns_shape env args features w w' nr_core nr_agent r
              Hcount Hcore Hagent Hrun)
    as (_ & _ & Hcp & _ & Hap & (first & Hfirst & Hhost) & _).
  exists first. split; [exact Hfirst|].
  unfold log_run_attempt. cbn [negb]. rewrite Hcp, Hap, Hhost. reflexivity.
Qed.

Lemma log_run_attempt_after_run_witness :
  exists r w',
    run Demo.env (Demo.args "2:1") [] Demo.world = (Ok r, w') /\
    snd (log_run_attempt (fun s => s) false r true 60) =
      [ ["info"; "--host"; "192.168.128.1"] ] /\
    nth_error (fst (log_run_attempt (fun s => s) false r true 60)) 2 =
      Some (LogInfo "  core: 2 instances") /\
    nth_error (fst (log_run_attempt (fun s => s) false r true 60)) 3 =
      Some (LogInfo "  agent: 1 instance").
Proof.
  destruct (run Demo.env (Demo.args "2:1") [] Demo.world) as [[r|e] w'] eqn:E;
    [|apply (f_equal fst) in E; vm_compute in E; discriminate E].
  destruct (log_run_attempt_after_run Demo.env (Demo.args "2:1") [] Demo.world
              w' 2 1 r (fun s => s) 60 eq_refl ltac:(lia) ltac:(lia) E)
    as (first & Hfirst & Hlog).
  exists r, w'. split; [reflexivity|].
  rewrite Hlog. cbn [fst snd nth_error].
  split; [|split; reflexivity].
  apply (f_equal (fun x => match fst x with
                           | Ok r => hd_error (core_addrs r)
                           | Raise _ => None end)) in E.
  cbn [fst] in E. rewrite Hfirst in E. vm_compute in E.
  injection E as <-. reflexivity.
Defined.

(** Asked not to wait, [log_run_attempt] logs nothing and calls nothing;
    a sandbox that did not start in time gets the two error records, which
    name the timeout, and no [conduct info]; [conduct info] is called
    exactly when the sandbox is awaited and has started. *)
Theorem log_run_attempt_cases (headline : string -> string) (no_wait : bool)
    (r : SandboxRunResult) (is_started : bool) (wait_timeout : Z) :
  let out := log_run_attempt headline no_wait r is_started wait_timeout in
  (no_wait = true -> out = ([], [])) /\
  (snd out <> [] <-> no_wait = false /\ is_started = true) /\
  (existsb is_error (fst out) = true <-> no_wait = false /\ is_started = false) /\
  (no_wait = false -> is_started = false ->
   List.filter is_error (fst out) =
     [ LogError ("ConductR has not been started within " ++
                 Py.str wait_timeout ++ " seconds.");
       LogError "Set the env CONDUCTR_SANDBOX_WAIT_RETRY_INTERVAL to increase the wait timeout." ]).
Proof.
  destruct no_wait, is_started; cbn; repeat split;
    try tauto; try discriminate; try reflexivity;
    try (intros [? ?]; discriminate); try (intros; discriminate).
Qed.
